(** * PDF text-extraction and translation service

    A shallow embedding of the two Express servers of the repository:

    - [Disk]   : [server.js], which stages uploads in [./uploads];
    - [Memory] : the second server file, which keeps uploads in memory and
                 adds the combined [/process-pdf] endpoint.

    JavaScript values are modelled by the inductive [value]; a string is a
    [string] whose characters stand for UTF-16 code units, so that [length]
    and [substring] count the way the source does.  Handlers are written in
    a small state-and-exception monad [M] over the part of the world they
    touch: the files on disk and the log of HTTP calls sent to the
    translation provider.  The PDF parser, the translation provider, the
    clock and the process environment are fields of a [runtime] record. *)

From stdpp Require Import base strings list gmap pretty.
From Stdlib Require Import ZArith Lia Strings.Byte.

Set Warnings "-register-all".

Local Open Scope string_scope.
Local Open Scope list_scope.
Local Open Scope Z_scope.

(* ===================================================================== *)
(** ** JavaScript values and strings *)
(* ===================================================================== *)

Module JS.

Inductive value : Type :=
| Undefined
| Null
| Bool (b : bool)
| Num (n : Z)
| Str (s : string)
| Arr (elems : list value)
| Obj (fields : list (string * value)).

(** [typeof v] *)
Definition typeof (v : value) : string :=
  match v with
  | Undefined => "undefined"
  | Null => "object"
  | Bool _ => "boolean"
  | Num _ => "number"
  | Str _ => "string"
  | Arr _ => "object"
  | Obj _ => "object"
  end.

(** ToBoolean: what [!v], [a && b], [a || b] and [c ? x : y] test. *)
Definition truthy (v : value) : bool :=
  match v with
  | Undefined => false
  | Null => false
  | Bool b => b
  | Num n => negb (Z.eqb n 0)
  | Str s => negb (Nat.eqb (String.length s) 0)
  | Arr _ => true
  | Obj _ => true
  end.

(** [a || b] and [a && b] on values. *)
Definition or_else (a b : value) : value := if truthy a then a else b.

Definition nullish (v : value) : bool :=
  match v with
  | Undefined | Null => true
  | _ => false
  end.

Fixpoint lookup_field (k : string) (fields : list (string * value)) : value :=
  match fields with
  | [] => Undefined
  | (k', v) :: rest => if String.eqb k k' then v else lookup_field k rest
  end.

(** [v.k] for a [v] that is neither [null] nor [undefined], and for the
    property names the servers read (none of them is a built-in of
    strings or arrays). *)
Definition get (k : string) (v : value) : value :=
  match v with
  | Obj fields => lookup_field k fields
  | _ => Undefined
  end.

(** [v?.k] *)
Definition opt_get (k : string) (v : value) : value :=
  if nullish v then Undefined else get k v.

(** *** Strings *)

Fixpoint take (n : nat) (s : string) : string :=
  match n, s with
  | O, _ => ""
  | S _, EmptyString => ""
  | S n', String c s' => String c (take n' s')
  end.

Fixpoint drop (n : nat) (s : string) : string :=
  match n, s with
  | O, _ => s
  | S _, EmptyString => ""
  | S n', String _ s' => drop n' s'
  end.

(** [s.length] *)
Definition length (s : string) : Z := Z.of_nat (String.length s).

(** [s.substring(indexStart, indexEnd)]: both indices are clamped to
    [0 .. s.length] and swapped when they come in the wrong order. *)
Definition substring (s : string) (indexStart indexEnd : Z) : string :=
  let len := length s in
  let finalStart := Z.min (Z.max indexStart 0) len in
  let finalEnd := Z.min (Z.max indexEnd 0) len in
  let from := Z.min finalStart finalEnd in
  let to := Z.max finalStart finalEnd in
  take (Z.to_nat (to - from)) (drop (Z.to_nat from) s).

(** [s.endsWith(suffix)] *)
Definition endsWith (s suffix : string) : bool :=
  String.eqb (substring s (length s - length suffix) (length s)) suffix.

(** *** What [res.json] puts on the wire

    [JSON.stringify] leaves out the properties of an object whose value
    is [undefined] and writes [null] for an [undefined] array element. *)
Fixpoint serialize (v : value) : value :=
  match v with
  | Obj fields =>
      Obj ((fix go (l : list (string * value)) : list (string * value) :=
              match l with
              | [] => []
              | (k, Undefined) :: rest => go rest
              | (k, x) :: rest => (k, serialize x) :: go rest
              end) fields)
  | Arr elems =>
      Arr ((fix go (l : list value) : list value :=
              match l with
              | [] => []
              | Undefined :: rest => Null :: go rest
              | x :: rest => serialize x :: go rest
              end) elems)
  | _ => v
  end.

(** A property is on the wire when the serialised object has it. *)
Definition has_field (k : string) (v : value) : bool :=
  match v with
  | Obj fields => existsb (String.eqb k) (map fst fields)
  | _ => false
  end.

(** *** Error objects *)

Record Error : Type := mkError { message : string; stack : string }.

End JS.

Import JS.

(* ===================================================================== *)
(** ** The world around a handler *)
(* ===================================================================== *)

Definition buffer : Type := list byte.

(** The [data] that [pdf-parse] resolves to. *)
Record pdf_data : Type := { text : string; numpages : Z }.

(** The query of one [axios.get] call. *)
Record axios_call : Type := {
  url : string;
  q : string;
  langpair : string;
  de : option string;
  timeout : Z
}.

Inductive result (A : Type) : Type :=
| Ok (a : A)
| Throw (e : Error).
Arguments Ok {A} a.
Arguments Throw {A} e.

(** What the code does not define itself.  [Number_toString] is the
    language's conversion of a number to a string.  [Object_toString] is
    its conversion of an array or an object, which throws a [TypeError]
    when the value has no primitive form (an object whose own property
    [toString] is not a function, for one).  [stack_of] is the trace the
    engine records in a new [Error]; [pdf] and [provider] answer [Throw]
    when the promise rejects; [provider] gives [response.data] of a 2xx
    answer. *)
Record runtime : Type := {
  Number_toString : Z → string;
  Object_toString : value → result string;
  stack_of : string → string;
  NODE_ENV : option string;
  Date_now : Z;
  pdf : buffer → result pdf_data;
  provider : axios_call → result value
}.

Record world : Type := {
  files : gmap string buffer;
  sent : list axios_call
}.

(** The state-and-exception monad of the handlers. *)
Definition M (A : Type) : Type := world → result A * world.

Definition ret {A} (a : A) : M A := λ w, (Ok a, w).
Definition throw {A} (e : Error) : M A := λ w, (Throw e, w).
Definition bind {A B} (m : M A) (k : A → M B) : M B :=
  λ w, match m w with
       | (Ok a, w') => k a w'
       | (Throw e, w') => (Throw e, w')
       end.
Definition try_catch {A} (m : M A) (handler : Error → M A) : M A :=
  λ w, match m w with
       | (Ok a, w') => (Ok a, w')
       | (Throw e, w') => handler e w'
       end.
Definition lift {A} (r : result A) : M A := λ w, (r, w).

Notation "'let!' x ':=' m 'in' k" := (bind m (λ x, k))
  (at level 10, x binder, m at level 100, k at level 200, only parsing).

Section Runtime.
Context (rt : runtime).

(** ToString: what a template literal and [new Error(v)] apply to a
    value.  It cannot fail on a primitive. *)
Definition ToString (v : value) : result string :=
  match v with
  | Undefined => Ok "undefined"
  | Null => Ok "null"
  | Bool true => Ok "true"
  | Bool false => Ok "false"
  | Num n => Ok (Number_toString rt n)
  | Str s => Ok s
  | Arr _ => Object_toString rt v
  | Obj _ => Object_toString rt v
  end.

(** The template literal [`${a}|${b}`]: [a] is converted first, then
    [b]; the first conversion that throws ends the evaluation. *)
Definition language_pair (a b : value) : M string :=
  let! from := lift (ToString a) in
  let! to := lift (ToString b) in
  ret (from +:+ "|" +:+ to).

(** [new Error(msg)] for a string [msg]. *)
Definition new_Error (msg : string) : Error :=
  {| message := msg; stack := stack_of rt msg |}.

(** [throw new Error(v)]: the conversion of [v] to the message may throw
    itself. *)
Definition throw_new_Error {A} (v : value) : M A :=
  let! msg := lift (ToString v) in
  throw (new_Error msg).

(** [v.k], which throws a [TypeError] on [null] and [undefined]. *)
Definition member (v : value) (k : string) : M value :=
  if nullish v
  then throw (new_Error ("Cannot read properties of "
                           +:+ match v with Null => "null" | _ => "undefined" end
                           +:+ " (reading '" +:+ k +:+ "')"))
  else ret (get k v).

(** [process.env.NODE_ENV === 'development'] *)
Definition development : bool :=
  bool_decide (NODE_ENV rt = Some "development").

(** [await axios.get(url, { params, timeout })]: the call is logged and
    answered by the provider. *)
Definition axios_get (c : axios_call) : M value :=
  λ w, (provider rt c, {| files := files w; sent := sent w ++ [c] |}).

(** [fs.existsSync], [fs.readFileSync], [fs.unlinkSync] *)
Definition existsSync (p : string) : M bool :=
  λ w, (Ok (bool_decide (is_Some (files w !! p))), w).

Definition ENOENT (op p : string) : Error :=
  new_Error ("ENOENT: no such file or directory, " +:+ op
               +:+ " '" +:+ p +:+ "'").

Definition readFileSync (p : string) : M buffer :=
  λ w, match files w !! p with
       | Some b => (Ok b, w)
       | None => (Throw (ENOENT "open" p), w)
       end.

Definition unlinkSync (p : string) : M unit :=
  λ w, match files w !! p with
       | Some _ => (Ok tt, {| files := delete p (files w); sent := sent w |})
       | None => (Throw (ENOENT "unlink" p), w)
       end.

End Runtime.

(* ===================================================================== *)
(** ** Requests, responses and the upload middleware *)
(* ===================================================================== *)

(** The file part of a multipart request. *)
Record part : Type := {
  fieldname : string;
  originalname : string;
  mimetype : string;
  content : buffer
}.

Record request : Type := {
  method : string;
  path : string;
  body : value;
  upload : option part
}.

(** A response that went out through [res.status(code).json(obj)]. *)
Record response : Type := { status : Z; json : value }.

Definition res_status_json (code : Z) (obj : value) : response :=
  {| status := code; json := serialize obj |}.

(** [res.json(obj)]: the status stays at its default. *)
Definition res_json (obj : value) : response := res_status_json 200 obj.

(** How the application leaves a request.  [Unhandled e]: [next(e)] ran
    past the last middleware of the application, so the framework's
    built-in error handler answers, not the code of the server.
    [Rejected e]: the promise of an [async] handler rejected.
    [NoRoute]: no route of the application matched. *)
Inductive outcome : Type :=
| Sent (r : response)
| Unhandled (e : Error)
| Rejected (e : Error)
| NoRoute.

(** [limits.fileSize] of both servers. *)
Definition fileSize : Z := 10 * 1024 * 1024.

(** The bytes of a part that the upload middleware lets through before it
    notices that the part is larger than [limits.fileSize]. *)
Definition truncated (p : part) : part :=
  {| fieldname := fieldname p;
     originalname := originalname p;
     mimetype := mimetype p;
     content := firstn (Z.to_nat fileSize) (content p) |}.

Section Multer.
Context (rt : runtime) {file : Type}.
Context (fileFilter : part → result bool).
Context (handleFile : part → M file) (removeFile : file → M unit).

(** [upload.single(name)] of multer.  A request without a file part goes
    on with [req.file] undefined.  A part under another field name and a
    part the filter answers with an error end in [next(err)] before the
    storage engine sees them.  A part the filter accepts is streamed to
    the storage engine; when it turns out larger than [limits.fileSize],
    what the engine has stored is removed again and the request ends in
    [next(err)]. *)
Definition single (name : string) (up : option part) : M (option file) :=
  match up with
  | None => ret None
  | Some p =>
      if negb (String.eqb (fieldname p) name)
      then throw (new_Error rt "Unexpected field")
      else
        let! accepted := lift (fileFilter p) in
        if accepted
        then
          if fileSize <? Z.of_nat (List.length (content p))
          then
            let! f := handleFile (truncated p) in
            let! _ := removeFile f in
            throw (new_Error rt "File too large")
          else let! f := handleFile p in ret (Some f)
        else ret None
  end.

End Multer.

(* ===================================================================== *)
(** ** The memory-backed server *)
(* ===================================================================== *)

Module Memory.

(** [req.file] under [multer.memoryStorage()]. *)
Record file : Type := {
  file_originalname : string;
  file_mimetype : string;
  file_size : Z;
  file_buffer : buffer
}.

Section Server.
Context (rt : runtime).

Definition fileFilter (p : part) : result bool :=
  if String.eqb (mimetype p) "application/pdf"
  then Ok true
  else Throw (new_Error rt "Only PDF files are allowed (max 10MB)").

(** [multer.memoryStorage()]: the bytes are kept in a buffer, and removing
    a file drops the buffer. *)
Definition memoryStorage (p : part) : M file :=
  ret {| file_originalname := originalname p;
         file_mimetype := mimetype p;
         file_size := Z.of_nat (List.length (content p));
         file_buffer := content p |}.

Definition memoryStorage_remove (f : file) : M unit := ret tt.

Definition upload_single : string → option part → M (option file) :=
  single rt fileFilter memoryStorage memoryStorage_remove.

Definition health : response :=
  res_json (Obj [("status", Str "ready");
                 ("endpoints", Obj [("extractText", Str "POST /extract-text");
                                    ("translate", Str "POST /translate");
                                    ("combined", Str "POST /process-pdf")]);
                 ("limits", Str "PDFs up to 10MB")]).

Definition translateText (text : string) (fromLang toLang : value) : M value :=
  let! languages := language_pair rt fromLang toLang in
  let! data :=
    axios_get rt
      {| url := "https://api.mymemory.translated.net/get";
         q := substring text 0 500;
         langpair := languages;
         de := Some "your-email@example.com";
         timeout := 5000 |} in
  if negb (truthy (opt_get "translatedText" (opt_get "responseData" data)))
  then throw_new_Error rt (or_else (opt_get "responseStatus" data)
                                   (Str "Translation service error"))
  else
    let! responseData := member rt data "responseData" in
    member rt responseData "translatedText".

Definition handleError (err : Error) (context : string) : response :=
  res_status_json 500
    (Obj [("success", Bool false);
          ("error", Str context);
          ("details", if development rt
                      then Obj [("message", Str (message err));
                                ("stack", Str (stack err))]
                      else Undefined)]).

Definition no_file : response :=
  res_status_json 400
    (Obj [("success", Bool false); ("error", Str "No PDF file uploaded")]).

(** The [try] block of [/process-pdf]. *)
Definition process_pdf_try (req_file : option file) : M response :=
  match req_file with
  | None => ret no_file
  | Some f =>
      let! data := lift (pdf rt (file_buffer f)) in
      let extractedText := text data in
      let! translation :=
        (if 50 <? length extractedText
         then translateText (substring extractedText 0 500)
                            (Str "auto") (Str "en")
         else ret (Str "")) in
      ret (res_json
             (Obj [("success", Bool true);
                   ("metadata", Obj [("pages", Num (numpages data));
                                     ("textLength", Num (length extractedText))]);
                   ("extractedText",
                    Str (substring extractedText 0 1000
                           +:+ (if 1000 <? length extractedText
                                then "..." else "")));
                   ("translatedText", translation);
                   ("downloadLink", Null)]))
  end.

(** The [catch] block of [/process-pdf]. *)
Definition process_pdf_catch (err : Error) : M response :=
  ret (res_status_json 500
         (Obj [("success", Bool false);
               ("error", Str "PDF processing failed");
               ("details", if development rt
                           then Str (message err) else Undefined)])).

Definition process_pdf (req_file : option file) : M response :=
  try_catch (process_pdf_try req_file) process_pdf_catch.

(** The [try] block of [/extract-text]. *)
Definition extract_text_try (req_file : option file) : M response :=
  match req_file with
  | None => ret no_file
  | Some f =>
      let! data := lift (pdf rt (file_buffer f)) in
      ret (res_json (Obj [("success", Bool true);
                          ("text", Str (text data));
                          ("pages", Num (numpages data));
                          ("textLength", Num (length (text data)))]))
  end.

(** The [catch] block of [/extract-text]. *)
Definition extract_text_catch (err : Error) : M response :=
  ret (handleError err "Text extraction failed").

Definition extract_text (req_file : option file) : M response :=
  try_catch (extract_text_try req_file) extract_text_catch.

(** [const { text, fromLang = 'auto', toLang = 'en' } = req.body] *)
Definition destructure (body : value) : M (value * value * value) :=
  if nullish body
  then throw (new_Error rt ("Cannot destructure property 'text' of "
                             +:+ "'req.body' as it is "
                             +:+ match body with
                                 | Null => "null" | _ => "undefined" end
                             +:+ "."))
  else ret (get "text" body,
            match get "fromLang" body with Undefined => Str "auto" | v => v end,
            match get "toLang" body with Undefined => Str "en" | v => v end).

(** The [try] block of [/translate]. *)
Definition translate_try (body : value) : M response :=
  let! '(text, fromLang, toLang) := destructure body in
  if negb (truthy text) || negb (String.eqb (typeof text) "string")
  then ret (res_status_json 400
              (Obj [("success", Bool false);
                    ("error", Str "Valid text is required for translation")]))
  else
    match text with
    | Str s =>
        let! result := translateText s fromLang toLang in
        ret (res_json (Obj [("success", Bool true);
                            ("translatedText", result);
                            ("characters", Num (length s))]))
    | _ => throw (new_Error rt "text is not a string")
    end.

(** The [catch] block of [/translate]. *)
Definition translate_catch (err : Error) : M response :=
  ret (handleError err "Translation failed").

Definition translate (body : value) : M response :=
  try_catch (translate_try body) translate_catch.

(** A route with [upload.single('pdf')] in front of its handler.  No
    error-handling middleware is registered, so an error of the upload
    middleware is [Unhandled]. *)
Definition with_upload (handler : option file → M response) (req : request)
  : M outcome :=
  λ w, match upload_single "pdf" (upload req) w with
       | (Throw e, w') => (Ok (Unhandled e), w')
       | (Ok req_file, w') =>
           match handler req_file w' with
           | (Ok r, w'') => (Ok (Sent r), w'')
           | (Throw e, w'') => (Ok (Rejected e), w'')
           end
       end.

Definition without_upload (handler : M response) : M outcome :=
  λ w, match handler w with
       | (Ok r, w') => (Ok (Sent r), w')
       | (Throw e, w') => (Ok (Rejected e), w')
       end.

Definition app (req : request) : M outcome :=
  if String.eqb (method req) "GET" && String.eqb (path req) "/"
  then ret (Sent health)
  else if String.eqb (method req) "POST" && String.eqb (path req) "/process-pdf"
  then with_upload process_pdf req
  else if String.eqb (method req) "POST" && String.eqb (path req) "/extract-text"
  then with_upload extract_text req
  else if String.eqb (method req) "POST" && String.eqb (path req) "/translate"
  then without_upload (translate (body req))
  else ret NoRoute.

End Server.
End Memory.

(* ===================================================================== *)
(** ** The disk-backed server *)
(* ===================================================================== *)

Module Disk.

(** [req.file] under [multer.diskStorage]. *)
Record file : Type := {
  file_originalname : string;
  file_mimetype : string;
  file_size : Z;
  file_filename : string;
  file_path : string
}.

Section Server.
Context (rt : runtime).

Definition fileFilter (p : part) : result bool :=
  if String.eqb (mimetype p) "application/pdf"
  then Ok true
  else Throw (new_Error rt "Only PDF files are allowed!").

(** The storage engine: the part is written to
    [uploads/<Date.now()>-<originalname>].  The directory itself, which
    [destination] creates when it is missing, is not part of [files]. *)
Definition diskStorage (p : part) : M file :=
  let filename :=
    Number_toString rt (Date_now rt) +:+ "-" +:+ originalname p in
  let path := "uploads/" +:+ filename in
  λ w, (Ok {| file_originalname := originalname p;
              file_mimetype := mimetype p;
              file_size := Z.of_nat (List.length (content p));
              file_filename := filename;
              file_path := path |},
        {| files := <[path := content p]> (files w); sent := sent w |}).

(** How the storage engine removes what it stored: it unlinks the file. *)
Definition diskStorage_remove (f : file) : M unit :=
  λ w, (Ok tt, {| files := delete (file_path f) (files w); sent := sent w |}).

Definition upload_single : string → option part → M (option file) :=
  single rt fileFilter diskStorage diskStorage_remove.

Definition health : response :=
  res_status_json 200
    (Obj [("status", Str "running");
          ("message", Str "PDF Processing Service is operational")]).

(** The [try] block of [/extract-text]. *)
Definition extract_text_try (req_file : option file) : M response :=
  match req_file with
  | None =>
      ret (res_status_json 400
             (Obj [("success", Bool false);
                   ("error", Str "No PDF file uploaded")]))
  | Some f =>
      let! dataBuffer := readFileSync rt (file_path f) in
      let! data := lift (pdf rt dataBuffer) in
      let! _ := unlinkSync rt (file_path f) in
      ret (res_status_json 200
             (Obj [("success", Bool true); ("text", Str (text data))]))
  end.

(** The [catch] block of [/extract-text]. *)
Definition extract_text_catch (req_file : option file) (err : Error)
  : M response :=
  let! _ :=
    (match req_file with
     | Some f =>
         let! there := existsSync (file_path f) in
         if there then unlinkSync rt (file_path f) else ret tt
     | None => ret tt
     end) in
  ret (res_status_json 500
         (Obj [("success", Bool false);
               ("error", Str "Failed to process PDF");
               ("details", Str (message err))])).

Definition extract_text (req_file : option file) : M response :=
  try_catch (extract_text_try req_file) (extract_text_catch req_file).

(** [const { text, fromLang = 'en', toLang = 'es' } = req.body] *)
Definition destructure (body : value) : M (value * value * value) :=
  if nullish body
  then throw (new_Error rt ("Cannot destructure property 'text' of "
                             +:+ "'req.body' as it is "
                             +:+ match body with
                                 | Null => "null" | _ => "undefined" end
                             +:+ "."))
  else ret (get "text" body,
            match get "fromLang" body with Undefined => Str "en" | v => v end,
            match get "toLang" body with Undefined => Str "es" | v => v end).

(** The [try] block of [/translate]. *)
Definition translate_try (body : value) : M response :=
  let! '(text, fromLang, toLang) := destructure body in
  if negb (truthy text) || negb (String.eqb (typeof text) "string")
  then ret (res_status_json 400
              (Obj [("success", Bool false);
                    ("error", Str "Valid text is required for translation")]))
  else
    match text with
    | Str s =>
        let textToTranslate :=
          if 500 <? length s then substring s 0 500 else s in
        let! languages := language_pair rt fromLang toLang in
        let! data :=
          axios_get rt
            {| url := "https://api.mymemory.translated.net/get";
               q := textToTranslate;
               langpair := languages;
               de := None;
               timeout := 10000 |} in
        let! valid :=
          (if truthy data then member rt data "responseData" else ret data) in
        if truthy valid
        then
          let! responseData := member rt data "responseData" in
          let! translatedText := member rt responseData "translatedText" in
          ret (res_status_json 200
                 (Obj [("success", Bool true);
                       ("translatedText", translatedText)]))
        else
          throw (new_Error rt "Invalid response from translation service")
    | _ => throw (new_Error rt "text is not a string")
    end.

(** The [catch] block of [/translate]. *)
Definition translate_catch (err : Error) : M response :=
  ret (res_status_json 500
         (Obj [("success", Bool false);
               ("error", Str "Translation failed");
               ("details", Str (message err))])).

Definition translate (body : value) : M response :=
  try_catch (translate_try body) translate_catch.

(** The error-handling middleware registered after the routes. *)
Definition error_middleware (err : Error) : response :=
  res_status_json 500
    (Obj [("success", Bool false);
          ("error", Str "Internal server error");
          ("details", Str (message err))]).

Definition with_upload (handler : option file → M response) (req : request)
  : M outcome :=
  λ w, match upload_single "pdf" (upload req) w with
       | (Throw e, w') => (Ok (Sent (error_middleware e)), w')
       | (Ok req_file, w') =>
           match handler req_file w' with
           | (Ok r, w'') => (Ok (Sent r), w'')
           | (Throw e, w'') => (Ok (Rejected e), w'')
           end
       end.

Definition without_upload (handler : M response) : M outcome :=
  λ w, match handler w with
       | (Ok r, w') => (Ok (Sent r), w')
       | (Throw e, w') => (Ok (Rejected e), w')
       end.

Definition app (req : request) : M outcome :=
  if String.eqb (method req) "GET" && String.eqb (path req) "/"
  then ret (Sent health)
  else if String.eqb (method req) "POST" && String.eqb (path req) "/extract-text"
  then with_upload extract_text req
  else if String.eqb (method req) "POST" && String.eqb (path req) "/translate"
  then without_upload (translate (body req))
  else ret NoRoute.

End Server.
End Disk.

(* ===================================================================== *)
(** ** Vocabulary of the specifications *)
(* ===================================================================== *)

(** A computation only appends to the log of provider calls, and every
    call it appends satisfies [P]. *)
Definition appends {A} (P : axios_call → Prop) (m : M A) : Prop :=
  ∀ w, ∃ new, sent (m w).2 = sent w ++ new ∧ Forall P new.

(** A computation leaves the world as it found it: no file is touched
    and the provider is not called. *)
Definition silent {A} (m : M A) : Prop := ∀ w, (m w).2 = w.

(** Whatever a computation returns satisfies [Q]. *)
Definition returns {A} (Q : A → Prop) (m : M A) : Prop :=
  ∀ w a w', m w = (Ok a, w') → Q a.

(** A computation always returns: it cannot end in an exception. *)
Definition total {A} (m : M A) : Prop :=
  ∀ w, ∃ a w', m w = (Ok a, w').

(** A computation leaves every file as it found it. *)
Definition keeps_files {A} (m : M A) : Prop :=
  ∀ w, files (m w).2 = files w.

(** A computation sends at most [n] queries to the provider, and only
    appends them to the log. *)
Definition calls_at_most {A} (n : nat) (m : M A) : Prop :=
  ∀ w, ∃ new, sent (m w).2 = sent w ++ new ∧ (List.length new <= n)%nat.

(** The query that [translateText] of the memory-backed server makes for
    a text and the strings of its two languages. *)
Definition memory_query (text from to : string) : axios_call :=
  {| url := "https://api.mymemory.translated.net/get";
     q := substring text 0 500;
     langpair := from +:+ "|" +:+ to;
     de := Some "your-email@example.com";
     timeout := 5000 |}.

(** The query that [/translate] of the disk-backed server makes for a text
    and the strings of its two languages. *)
Definition disk_query (text from to : string) : axios_call :=
  {| url := "https://api.mymemory.translated.net/get";
     q := if 500 <? length text then substring text 0 500 else text;
     langpair := from +:+ "|" +:+ to;
     de := None;
     timeout := 10000 |}.

(** A failure response: [success] is [false] in its body. *)
Definition failure (r : response) : Prop :=
  get "success" (json r) = Bool false.

(** A success response: [success] is [true] in its body. *)
Definition success (r : response) : Prop :=
  get "success" (json r) = Bool true.

(** A failure response of the memory-backed server either reports a
    rejected request (400, no [details]) or a caught error (500, with
    [details] exactly when [dev] holds). *)
Definition details_gated (dev : bool) (r : response) : Prop :=
  failure r →
  (status r = 400 ∧ has_field "details" (json r) = false)
  ∨ (status r = 500 ∧ has_field "details" (json r) = dev).

(** A failure response of the disk-backed server either reports a rejected
    request (400, no [details]) or a caught error (500, with a message in
    [details]). *)
Definition details_always (r : response) : Prop :=
  failure r →
  (status r = 400 ∧ has_field "details" (json r) = false)
  ∨ (status r = 500 ∧ ∃ msg, get "details" (json r) = Str msg).

(** The failure envelope: [success: false] and an [error] string. *)
Definition envelope (r : response) : Prop :=
  failure r ∧ ∃ msg, get "error" (json r) = Str msg.

(* ===================================================================== *)
(** ** A concrete runtime, for running the servers on examples *)
(* ===================================================================== *)

Module Example.

(** The error of a conversion to a string that has no result. *)
Definition cannot_convert : Error :=
  {| message := "Cannot convert object to primitive value";
     stack := "TypeError: Cannot convert object to primitive value" |}.

(** The conversion to a string of the values that JSON can carry: the
    elements of an array are joined with commas, an object is
    "[object Object]", and an object with an own property [toString],
    which JSON cannot make a function, has no string form. *)
Fixpoint ToString (v : value) : result string :=
  match v with
  | Undefined => Ok "undefined"
  | Null => Ok "null"
  | Bool true => Ok "true"
  | Bool false => Ok "false"
  | Num n => Ok (pretty n)
  | Str s => Ok s
  | Arr elems =>
      (fix join (l : list value) : result string :=
         match l with
         | [] => Ok ""
         | x :: rest =>
             match (match x with
                    | Undefined | Null => Ok ""
                    | _ => ToString x
                    end) with
             | Throw e => Throw e
             | Ok first =>
                 match rest with
                 | [] => Ok first
                 | _ => match join rest with
                        | Throw e => Throw e
                        | Ok others => Ok (first +:+ "," +:+ others)
                        end
                 end
             end
         end) elems
  | Obj fields =>
      if existsb (String.eqb "toString") (map fst fields)
      then Throw cannot_convert
      else Ok "[object Object]"
  end.

(** A runtime whose parser and provider give the same answer to every
    call. *)
Definition runtime_with (env : option string) (parsed : result pdf_data)
    (answer : result value) : runtime :=
  {| Number_toString := pretty;
     Object_toString := ToString;
     stack_of := λ msg, "Error: " +:+ msg +:+ " at <anonymous>";
     NODE_ENV := env;
     Date_now := 1700000000000;
     pdf := λ _, parsed;
     provider := λ _, answer |}.

(** A runtime whose provider translates "hello" and fails on every other
    query. *)
Definition runtime_for_hello (env : option string) (answer : result value)
    (otherwise : Error) : runtime :=
  {| Number_toString := pretty;
     Object_toString := ToString;
     stack_of := λ msg, "Error: " +:+ msg +:+ " at <anonymous>";
     NODE_ENV := env;
     Date_now := 1700000000000;
     pdf := λ _, Throw otherwise;
     provider := λ c, if String.eqb (q c) "hello"
                      then answer else Throw otherwise |}.

(** A language that cannot be put into a template literal. *)
Definition no_language : value := Obj [("toString", Null)].

Definition empty_world : world := {| files := ∅; sent := [] |}.

Fixpoint filler (n : nat) : string :=
  match n with
  | O => ""
  | S n' => "x" +:+ filler n'
  end.

(** A PDF of three pages whose text has 1200 characters. *)
Definition fixture : pdf_data := {| text := filler 1200; numpages := 3 |}.

Definition translated (s : string) : value :=
  Obj [("responseData", Obj [("translatedText", Str s)]);
       ("responseStatus", Num 200)].

Definition timed_out : Error :=
  {| message := "timeout of 5000ms exceeded"; stack := "AxiosError" |}.

(** The error of a parser that cannot read the bytes it is given. *)
Definition unparsable : Error :=
  {| message := "Invalid PDF structure"; stack := "InvalidPDFException" |}.

Definition pdf_upload : part :=
  {| fieldname := "pdf"; originalname := "report.pdf";
     mimetype := "application/pdf"; content := [] |}.

Definition text_upload : part :=
  {| fieldname := "pdf"; originalname := "notes.txt";
     mimetype := "text/plain"; content := [] |}.

Definition memory_file : Memory.file :=
  {| Memory.file_originalname := "report.pdf";
     Memory.file_mimetype := "application/pdf";
     Memory.file_size := 0;
     Memory.file_buffer := [] |}.

Definition disk_file : Disk.file :=
  {| Disk.file_originalname := "report.pdf";
     Disk.file_mimetype := "application/pdf";
     Disk.file_size := 0;
     Disk.file_filename := "1700000000000-report.pdf";
     Disk.file_path := "uploads/1700000000000-report.pdf" |}.

(** A disk on which [disk_file] has been staged. *)
Definition staged_world : world :=
  {| files := {[ "uploads/1700000000000-report.pdf" := [] ]}; sent := [] |}.

(** A provider answer without the translated text. *)
Definition untranslated : value :=
  Obj [("responseData", Obj []); ("responseStatus", Num 403)].

Definition post (p : string) (b : value) (up : option part) : request :=
  {| method := "POST"; path := p; body := b; upload := up |}.

End Example.

(* ===================================================================== *)
(** ** Facts about strings *)
(* ===================================================================== *)

Section StringFacts.

Lemma take_length (n : nat) (s : string) :
  String.length (take n s) = Nat.min n (String.length s).
Proof.
  revert s; induction n as [|n IH]; intros [|c s]; simpl; auto.
Qed.

Lemma take_all (n : nat) (s : string) :
  (String.length s <= n)%nat → take n s = s.
Proof.
  revert s; induction n as [|n IH]; intros [|c s]; simpl; intros Hle;
    try reflexivity; try lia.
  f_equal. apply IH. lia.
Qed.

Lemma take_min (n : nat) (s : string) :
  take (Nat.min n (String.length s)) s = take n s.
Proof.
  revert s; induction n as [|n IH]; intros [|c s]; simpl; auto.
  f_equal. apply IH.
Qed.

Lemma take_take (n : nat) (s : string) : take n (take n s) = take n s.
Proof.
  apply take_all. rewrite take_length. lia.
Qed.

Lemma append_length (s t : string) :
  String.length (s +:+ t) = (String.length s + String.length t)%nat.
Proof.
  induction s as [|c s IH]; simpl; auto.
Qed.

Lemma append_empty_r (s : string) : s +:+ "" = s.
Proof.
  induction s as [|c s IH]; [reflexivity|].
  change (String c (s +:+ "") = String c s). rewrite IH. reflexivity.
Qed.

Lemma drop_append (s t : string) : drop (String.length s) (s +:+ t) = t.
Proof.
  induction s as [|c s IH]; simpl; auto.
Qed.

(** [s.substring(0, n)] keeps the first [n] code units. *)
Lemma substring_prefix (s : string) (n : Z) :
  0 <= n → substring s 0 n = take (Z.to_nat n) s.
Proof.
  intros Hn. unfold substring, length.
  set (len := String.length s).
  replace (Z.min (Z.max 0 0) (Z.of_nat len)) with 0 by lia.
  replace (Z.max n 0) with n by lia.
  replace (Z.min 0 (Z.min n (Z.of_nat len))) with 0 by lia.
  replace (Z.max 0 (Z.min n (Z.of_nat len)) - 0) with (Z.min n (Z.of_nat len))
    by lia.
  simpl drop.
  replace (Z.to_nat (Z.min n (Z.of_nat len)))
    with (Nat.min (Z.to_nat n) len) by lia.
  apply take_min.
Qed.

Lemma substring_prefix_length (s : string) (n : Z) :
  0 <= n → length (substring s 0 n) = Z.min n (length s).
Proof.
  intros Hn. rewrite substring_prefix by assumption.
  unfold length. rewrite take_length. lia.
Qed.

Lemma substring_prefix_idem (s : string) (n : Z) :
  0 <= n → substring (substring s 0 n) 0 n = substring s 0 n.
Proof.
  intros Hn. rewrite !substring_prefix by assumption. apply take_take.
Qed.

Lemma substring_prefix_all (s : string) (n : Z) :
  length s <= n → substring s 0 n = s.
Proof.
  intros Hle. unfold length in Hle.
  rewrite substring_prefix by lia. apply take_all. lia.
Qed.

Lemma endsWith_append (s t : string) : endsWith (s +:+ t) t = true.
Proof.
  unfold endsWith, substring, length. rewrite append_length.
  set (a := String.length s). set (b := String.length t).
  replace (Z.min (Z.max (Z.of_nat (a + b) - Z.of_nat b) 0) (Z.of_nat (a + b)))
    with (Z.of_nat a) by lia.
  replace (Z.min (Z.max (Z.of_nat (a + b)) 0) (Z.of_nat (a + b)))
    with (Z.of_nat (a + b)%nat) by lia.
  replace (Z.min (Z.of_nat a) (Z.of_nat (a + b))) with (Z.of_nat a) by lia.
  replace (Z.max (Z.of_nat a) (Z.of_nat (a + b)) - Z.of_nat a)
    with (Z.of_nat b) by lia.
  rewrite !Nat2Z.id. subst a. rewrite drop_append.
  rewrite take_all by (subst b; lia). apply String.eqb_refl.
Qed.

End StringFacts.

(* ===================================================================== *)
(** ** The monad and the log of provider calls *)
(* ===================================================================== *)

Section Appends.
Context {A B : Type} (P : axios_call → Prop).

Lemma appends_ret (a : A) : appends P (ret a).
Proof. intros w. exists []. simpl. rewrite app_nil_r. auto. Qed.

Lemma appends_throw (e : Error) : appends P (@throw A e).
Proof. intros w. exists []. simpl. rewrite app_nil_r. auto. Qed.

Lemma appends_lift (r : result A) : appends P (lift r).
Proof. intros w. exists []. simpl. rewrite app_nil_r. auto. Qed.

Lemma appends_bind (m : M A) (k : A → M B) :
  appends P m → (∀ a, appends P (k a)) → appends P (bind m k).
Proof.
  intros Hm Hk w. unfold bind.
  destruct (Hm w) as (new1 & E1 & F1).
  destruct (m w) as [[a|e] w1]; simpl in *.
  - destruct (Hk a w1) as (new2 & E2 & F2).
    exists (new1 ++ new2). rewrite E2, E1, app_assoc.
    split; [reflexivity | apply Forall_app; auto].
  - exists new1. auto.
Qed.

Lemma appends_try_catch (m : M A) (h : Error → M A) :
  appends P m → (∀ e, appends P (h e)) → appends P (try_catch m h).
Proof.
  intros Hm Hh w. unfold try_catch.
  destruct (Hm w) as (new1 & E1 & F1).
  destruct (m w) as [[a|e] w1]; simpl in *.
  - exists new1. auto.
  - destruct (Hh e w1) as (new2 & E2 & F2).
    exists (new1 ++ new2). rewrite E2, E1, app_assoc.
    split; [reflexivity | apply Forall_app; auto].
Qed.

End Appends.

Lemma appends_member {P} (rt : runtime) (v : value) (k : string) :
  appends P (member rt v k).
Proof.
  unfold member. destruct (nullish v); [apply appends_throw | apply appends_ret].
Qed.

Lemma appends_axios_get (P : axios_call → Prop) (rt : runtime) (c : axios_call) :
  P c → appends P (axios_get rt c).
Proof.
  intros Hc w. exists [c]. simpl. auto.
Qed.

Create HintDb appends.
#[local] Hint Resolve appends_ret appends_throw appends_lift appends_member
  appends_axios_get : appends.

Ltac appends_step :=
  first [ solve [ auto with appends ]
        | apply appends_bind; [| intros ? ]
        | apply appends_try_catch; [| intros ? ] ].

(* ===================================================================== *)
(** ** The translation adapter of the memory-backed server *)
(* ===================================================================== *)

Section MemoryTranslateText.
Context (rt : runtime).

(** A truthy [data?.responseData?.translatedText] is what the two plain
    property reads after the check return; neither of them can throw. *)
Lemma member_chain (data : value) (w : world) :
  truthy (opt_get "translatedText" (opt_get "responseData" data)) = true →
  (let! responseData := member rt data "responseData" in
   member rt responseData "translatedText") w
  = (Ok (opt_get "translatedText" (opt_get "responseData" data)), w).
Proof.
  intros Ht. unfold bind, member, ret, opt_get in *.
  destruct (nullish data) eqn:Hd; simpl in *; [discriminate|].
  destruct (nullish (get "responseData" data)) eqn:Hr; simpl in *;
    [discriminate | reflexivity].
Qed.

(** One run of [translateText].  The two languages are converted to
    strings first; when a conversion throws, nothing is sent.  Otherwise
    exactly one query is sent, made of the first 500 characters of the
    input, and the answer is the provider's translated text when that
    field is truthy. *)
Lemma translateText_run (txt : string) (fromLang toLang : value) (w : world) :
  Memory.translateText rt txt fromLang toLang w =
    match ToString rt fromLang with
    | Throw e => (Throw e, w)
    | Ok from =>
        match ToString rt toLang with
        | Throw e => (Throw e, w)
        | Ok to =>
            let c := {| url := "https://api.mymemory.translated.net/get";
                        q := substring txt 0 500;
                        langpair := from +:+ "|" +:+ to;
                        de := Some "your-email@example.com";
                        timeout := 5000 |} in
            let w' := {| files := files w; sent := sent w ++ [c] |} in
            match provider rt c with
            | Throw e => (Throw e, w')
            | Ok data =>
                let translatedText :=
                  opt_get "translatedText" (opt_get "responseData" data) in
                if truthy translatedText
                then (Ok translatedText, w')
                else
                  match ToString rt
                          (or_else (opt_get "responseStatus" data)
                                   (Str "Translation service error")) with
                  | Ok msg => (Throw (new_Error rt msg), w')
                  | Throw e => (Throw e, w')
                  end
            end
        end
    end.
Proof.
  unfold Memory.translateText, language_pair, bind at 1 2 3, lift.
  destruct (ToString rt fromLang) as [from|e]; [|reflexivity].
  destruct (ToString rt toLang) as [to|e]; [|reflexivity].
  unfold ret at 1, bind at 1, axios_get. cbv zeta.
  destruct (provider rt _) as [data|e]; [|reflexivity].
  destruct (truthy _) eqn:Ht; simpl negb; cbv iota.
  - apply member_chain. exact Ht.
  - unfold throw_new_Error, bind, lift, throw.
    destruct (ToString rt (or_else _ _)); reflexivity.
Qed.

Lemma translateText_appends (txt : string) (fromLang toLang : value) :
  appends (λ c, q c = substring txt 0 500 ∧ length (q c) <= 500)
          (Memory.translateText rt txt fromLang toLang).
Proof.
  intros w. rewrite translateText_run.
  destruct (ToString rt fromLang) as [from|e];
    [|exists []; simpl; rewrite app_nil_r; auto].
  destruct (ToString rt toLang) as [to|e];
    [|exists []; simpl; rewrite app_nil_r; auto].
  eexists [_]. split.
  - cbv zeta. destruct (provider rt _) as [data|e]; [|reflexivity].
    destruct (truthy _); [reflexivity|].
    destruct (ToString rt (or_else _ _)); reflexivity.
  - repeat constructor. simpl. rewrite substring_prefix_length; lia.
Qed.

End MemoryTranslateText.

(* ===================================================================== *)
(** ** The handlers of the memory-backed server *)
(* ===================================================================== *)

Section MemoryHandlers.
Context (rt : runtime).

(** One run of [/process-pdf] on a file the parser accepts. *)
Lemma process_pdf_run (f : Memory.file) (data : pdf_data) (w : world) :
  pdf rt (Memory.file_buffer f) = Ok data →
  Memory.process_pdf rt (Some f) w =
    let extractedText := text data in
    let reply (translation : value) :=
      res_json
        (Obj [("success", Bool true);
              ("metadata", Obj [("pages", Num (numpages data));
                                ("textLength", Num (length extractedText))]);
              ("extractedText",
               Str (substring extractedText 0 1000
                      +:+ (if 1000 <? length extractedText then "..." else "")));
              ("translatedText", translation);
              ("downloadLink", Null)]) in
    if 50 <? length extractedText
    then
      match Memory.translateText rt (substring extractedText 0 500)
                                 (Str "auto") (Str "en") w with
      | (Ok translated, w') => (Ok (reply translated), w')
      | (Throw err, w') =>
          (Ok (res_status_json 500
                 (Obj [("success", Bool false);
                       ("error", Str "PDF processing failed");
                       ("details", if development rt
                                   then Str (message err) else Undefined)])),
           w')
      end
    else (Ok (reply (Str "")), w).
Proof.
  intros Hpdf. unfold Memory.process_pdf, Memory.process_pdf_try, Memory.process_pdf_catch, try_catch, bind, lift.
  rewrite Hpdf. cbv zeta.
  destruct (50 <? length (text data)); [|reflexivity].
  destruct (Memory.translateText _ _ _ _ w) as [[t|e] w']; reflexivity.
Qed.

Lemma process_pdf_appends (P : axios_call → Prop) (req_file : option Memory.file) :
  (∀ txt fromLang toLang, appends P (Memory.translateText rt txt fromLang toLang)) →
  appends P (Memory.process_pdf rt req_file).
Proof.
  intros Ht. unfold Memory.process_pdf, Memory.process_pdf_try, Memory.process_pdf_catch.
  apply appends_try_catch; [|auto with appends].
  destruct req_file as [f|]; [|auto with appends].
  repeat appends_step. case_match; auto with appends.
Qed.

Lemma extract_text_appends (P : axios_call → Prop) (req_file : option Memory.file) :
  appends P (Memory.extract_text rt req_file).
Proof.
  unfold Memory.extract_text, Memory.extract_text_try, Memory.extract_text_catch.
  apply appends_try_catch; [|auto with appends].
  destruct req_file as [f|]; repeat appends_step.
Qed.

Lemma translate_appends (P : axios_call → Prop) (body : value) :
  (∀ txt fromLang toLang, appends P (Memory.translateText rt txt fromLang toLang)) →
  appends P (Memory.translate rt body).
Proof.
  intros Ht. unfold Memory.translate, Memory.translate_try, Memory.translate_catch, Memory.destructure.
  apply appends_try_catch; [|auto with appends].
  apply appends_bind; [case_match; auto with appends|].
  intros [[txt fromLang] toLang].
  case_match; [auto with appends|].
  destruct txt; repeat appends_step.
Qed.

Lemma upload_single_silent (up : option part) :
  silent (Memory.upload_single rt "pdf" up).
Proof.
  intros w. unfold Memory.upload_single, single, Memory.memoryStorage.
  destruct up as [p|]; [|reflexivity].
  destruct (negb _); [reflexivity|].
  unfold bind, lift, Memory.fileFilter.
  destruct (String.eqb (mimetype p) _); [|reflexivity].
  destruct (fileSize <? _); reflexivity.
Qed.

Lemma with_upload_appends (P : axios_call → Prop)
    (handler : option Memory.file → M response) (req : request) :
  (∀ req_file, appends P (handler req_file)) →
  appends P (Memory.with_upload rt handler req).
Proof.
  intros Hh w. unfold Memory.with_upload.
  pose proof (upload_single_silent (upload req) w) as Hs.
  destruct (Memory.upload_single rt "pdf" (upload req) w) as [[req_file|e] w1];
    simpl in Hs; subst w1.
  - destruct (Hh req_file w) as (new & E & F).
    destruct (handler req_file w) as [[r|e] w2]; exists new; auto.
  - exists []. simpl. rewrite app_nil_r. auto.
Qed.

Lemma without_upload_appends (P : axios_call → Prop) (handler : M response) :
  appends P handler → appends P (Memory.without_upload handler).
Proof.
  intros Hh w. unfold Memory.without_upload.
  destruct (Hh w) as (new & E & F).
  destruct (handler w) as [[r|e] w2]; exists new; auto.
Qed.

Lemma app_appends (P : axios_call → Prop) (req : request) :
  (∀ txt fromLang toLang, appends P (Memory.translateText rt txt fromLang toLang)) →
  appends P (Memory.app rt req).
Proof.
  intros Ht. unfold Memory.app.
  repeat case_match; auto with appends.
  - apply with_upload_appends. intros. apply process_pdf_appends, Ht.
  - apply with_upload_appends. intros. apply extract_text_appends.
  - apply without_upload_appends, translate_appends, Ht.
Qed.

End MemoryHandlers.

(* ===================================================================== *)
(** ** The combined endpoint *)
(* ===================================================================== *)

Section ProcessPdf.
Context (rt : runtime).

(** C2. [/process-pdf] on a parsed PDF: when the extracted text has at most
    50 characters the response carries [translatedText: ""] and nothing is
    sent to the provider; when it has more, [translateText] runs once, on
    the first 500 characters of the text with the languages "auto" and
    "en" (one query is logged, holding those 500 characters and the pair
    "auto|en"), and its result is the [translatedText] of the response. *)
Theorem process_pdf_translates_long_text_once
    (f : Memory.file) (data : pdf_data) (w : world) :
  pdf rt (Memory.file_buffer f) = Ok data →
  (length (text data) <= 50 →
     ∃ r, Memory.process_pdf rt (Some f) w = (Ok r, w)
          ∧ status r = 200
          ∧ get "translatedText" (json r) = Str "")
  ∧ (50 < length (text data) →
     sent (Memory.process_pdf rt (Some f) w).2
       = sent w ++ [ {| url := "https://api.mymemory.translated.net/get";
                        q := substring (text data) 0 500;
                        langpair := "auto|en";
                        de := Some "your-email@example.com";
                        timeout := 5000 |} ]
     ∧ ∀ translated w',
         Memory.translateText rt (substring (text data) 0 500)
                              (Str "auto") (Str "en") w = (Ok translated, w') →
         ∃ r, Memory.process_pdf rt (Some f) w = (Ok r, w')
              ∧ status r = 200
              ∧ get "translatedText" (json r) = serialize translated).
Proof.
  intros Hpdf. rewrite (process_pdf_run rt f data w Hpdf). cbv zeta.
  split; intros Hlen.
  - replace (50 <? length (text data)) with false by lia.
    eexists. split; [reflexivity|]. split; reflexivity.
  - replace (50 <? length (text data)) with true by lia.
    split.
    + rewrite translateText_run. cbv zeta.
      rewrite substring_prefix_idem by lia. simpl.
      destruct (provider rt _) as [d|e]; [|reflexivity].
      destruct (truthy (opt_get _ _)); [reflexivity|].
      destruct (ToString rt (or_else _ _)); reflexivity.
    + intros translated w' Hrun. rewrite Hrun.
      eexists. split; [reflexivity|]. split; [reflexivity|].
      assert (truthy translated = true) as Ht.
      { rewrite translateText_run in Hrun. cbn [ToString] in Hrun.
        cbv zeta in Hrun.
        destruct (provider rt _) as [d|e]; [|discriminate Hrun].
        destruct (truthy (opt_get _ _)) eqn:Ht;
          [|destruct (ToString rt (or_else _ _)); discriminate Hrun].
        inversion Hrun; subst. exact Ht. }
      destruct translated; try discriminate Ht; reflexivity.
Qed.

(** C3. In a successful [/process-pdf] response, [extractedText] is the
    first 1000 characters of the text followed by "..." when the text is
    longer than 1000 characters, and the whole text otherwise; [metadata]
    holds the page count and the length of the text.  For a text of 1200
    characters on 3 pages: [pages] is 3, [textLength] is 1200, and
    [extractedText] has 1003 characters and ends in "...". *)
Theorem process_pdf_preview
    (f : Memory.file) (w w' : world) (r : response) :
  Memory.process_pdf rt (Some f) w = (Ok r, w') →
  success r →
  ∃ data,
    pdf rt (Memory.file_buffer f) = Ok data
    ∧ get "extractedText" (json r)
      = Str (if 1000 <? length (text data)
             then substring (text data) 0 1000 +:+ "..."
             else text data)
    ∧ get "pages" (get "metadata" (json r)) = Num (numpages data)
    ∧ get "textLength" (get "metadata" (json r)) = Num (length (text data))
    ∧ (length (text data) = 1200 → numpages data = 3 →
       get "pages" (get "metadata" (json r)) = Num 3
       ∧ get "textLength" (get "metadata" (json r)) = Num 1200
       ∧ ∃ preview, get "extractedText" (json r) = Str preview
                    ∧ length preview = 1003
                    ∧ endsWith preview "..." = true).
Proof.
  intros Hrun Hok.
  destruct (pdf rt (Memory.file_buffer f)) as [data|e] eqn:Hpdf.
  2:{ unfold Memory.process_pdf, Memory.process_pdf_try, Memory.process_pdf_catch, try_catch, bind, lift in Hrun.
      rewrite Hpdf in Hrun. inversion Hrun; subst. discriminate Hok. }
  exists data. split; [reflexivity|].
  rewrite (process_pdf_run rt f data w Hpdf) in Hrun. cbv zeta in Hrun.
  assert (get "extractedText" (json r)
          = Str (substring (text data) 0 1000
                   +:+ (if 1000 <? length (text data) then "..." else ""))
          ∧ get "pages" (get "metadata" (json r)) = Num (numpages data)
          ∧ get "textLength" (get "metadata" (json r))
            = Num (length (text data))) as (He & Hp & Hl).
  { destruct (50 <? length (text data)).
    - destruct (Memory.translateText _ _ _ _ w) as [[t|err] w1];
        inversion Hrun; subst; [|discriminate Hok].
      repeat split; reflexivity.
    - inversion Hrun; subst. repeat split; reflexivity. }
  split; [|split; [exact Hp | split; [exact Hl|]]].
  - rewrite He. destruct (1000 <? length (text data)) eqn:Hlong;
      [reflexivity|].
    rewrite substring_prefix_all by lia.
    rewrite append_empty_r. reflexivity.
  - intros H1200 H3. rewrite Hp, Hl, He, H1200, H3.
    split; [reflexivity|]. split; [reflexivity|].
    change (1000 <? 1200) with true. cbv iota.
    eexists. split; [reflexivity|].
    split; [|apply endsWith_append].
    unfold length. rewrite append_length.
    pose proof (substring_prefix_length (text data) 1000) as Hs.
    unfold length in Hs, H1200. simpl String.length. lia.
Qed.

End ProcessPdf.

(** A run of C2 on the 1200-character fixture. *)
Lemma process_pdf_translates_long_text_once_witness :
  let rt := Example.runtime_with None (Ok Example.fixture)
              (Ok (Example.translated "hola")) in
  ∃ r, Memory.process_pdf rt (Some Example.memory_file) Example.empty_world
       = (Ok r, {| files := ∅;
                   sent := [ {| url := "https://api.mymemory.translated.net/get";
                                q := Example.filler 500;
                                langpair := "auto|en";
                                de := Some "your-email@example.com";
                                timeout := 5000 |} ] |})
       ∧ status r = 200
       ∧ get "translatedText" (json r) = Str "hola".
Proof.
  intros rt.
  destruct (process_pdf_translates_long_text_once rt Example.memory_file
              Example.fixture Example.empty_world eq_refl) as [_ Hlong].
  destruct Hlong as [_ Hres]; [vm_compute; reflexivity|].
  apply (Hres (Str "hola")). vm_compute. reflexivity.
Defined.

(** A run of C3 on the 1200-character fixture. *)
Lemma process_pdf_preview_witness :
  let rt := Example.runtime_with None (Ok Example.fixture)
              (Ok (Example.translated "hola")) in
  ∃ r w', Memory.process_pdf rt (Some Example.memory_file) Example.empty_world
          = (Ok r, w')
          ∧ get "pages" (get "metadata" (json r)) = Num 3
          ∧ get "textLength" (get "metadata" (json r)) = Num 1200
          ∧ ∃ preview, get "extractedText" (json r) = Str preview
                       ∧ length preview = 1003
                       ∧ endsWith preview "..." = true.
Proof.
  intros rt.
  destruct (Memory.process_pdf rt (Some Example.memory_file)
              Example.empty_world) as [[r|e] w'] eqn:Hrun;
    [|vm_compute in Hrun; discriminate Hrun].
  exists r, w'. split; [reflexivity|].
  assert (success r) as Hok.
  { vm_compute in Hrun. inversion Hrun. reflexivity. }
  destruct (process_pdf_preview rt Example.memory_file Example.empty_world
              w' r Hrun Hok) as (data & Hpdf & _ & _ & _ & Hfix).
  inversion Hpdf; subst data. apply Hfix; reflexivity.
Defined.

(* ===================================================================== *)
(** ** The 500-character limit of the provider *)
(* ===================================================================== *)

(** C10. In the memory-backed server [translateText] cuts its input to the
    first 500 characters.  Whenever its two languages convert to strings
    it sends exactly one query, whose [q] is the first 500 characters of
    its input; when a conversion throws it sends nothing.  So the query
    of every call it makes, and of every call the application makes for
    any request, has at most 500 characters.  Cutting at 500 twice is
    cutting once: the adapter run that [/process-pdf] starts on the
    already cut text is the run on the text itself, and sends the first
    500 characters of the text. *)
Theorem translateText_truncates_to_500 (rt : runtime) :
  (∀ txt fromLang toLang,
     appends (λ c, q c = substring txt 0 500 ∧ length (q c) <= 500)
             (Memory.translateText rt txt fromLang toLang))
  ∧ (∀ req, appends (λ c, length (q c) <= 500) (Memory.app rt req))
  ∧ (∀ s, substring (substring s 0 500) 0 500 = substring s 0 500)
  ∧ (∀ s fromLang toLang w,
       Memory.translateText rt (substring s 0 500) fromLang toLang w
       = Memory.translateText rt s fromLang toLang w)
  ∧ (∀ txt fromLang toLang from to w,
       ToString rt fromLang = Ok from → ToString rt toLang = Ok to →
       sent (Memory.translateText rt txt fromLang toLang w).2
       = sent w ++ [ {| url := "https://api.mymemory.translated.net/get";
                        q := substring txt 0 500;
                        langpair := from +:+ "|" +:+ to;
                        de := Some "your-email@example.com";
                        timeout := 5000 |} ])
  ∧ (∀ txt fromLang toLang e w,
       ToString rt fromLang = Throw e
       ∨ (∃ from, ToString rt fromLang = Ok from)
         ∧ ToString rt toLang = Throw e →
       Memory.translateText rt txt fromLang toLang w = (Throw e, w))
  ∧ (∀ s w,
       sent (Memory.translateText rt (substring s 0 500)
               (Str "auto") (Str "en") w).2
       = sent w ++ [ {| url := "https://api.mymemory.translated.net/get";
                        q := substring s 0 500;
                        langpair := "auto|en";
                        de := Some "your-email@example.com";
                        timeout := 5000 |} ]).
Proof.
  assert (∀ txt fromLang toLang from to w,
            ToString rt fromLang = Ok from → ToString rt toLang = Ok to →
            sent (Memory.translateText rt txt fromLang toLang w).2
            = sent w ++ [ {| url := "https://api.mymemory.translated.net/get";
                             q := substring txt 0 500;
                             langpair := from +:+ "|" +:+ to;
                             de := Some "your-email@example.com";
                             timeout := 5000 |} ]) as Hsends.
  { intros txt fromLang toLang from to w Hfrom Hto.
    rewrite translateText_run, Hfrom, Hto. cbv zeta.
    destruct (provider rt _) as [data|e]; [|reflexivity].
    destruct (truthy (opt_get _ _)); [reflexivity|].
    destruct (ToString rt (or_else _ _)); reflexivity. }
  split; [|split; [|split; [|split; [|split; [|split]]]]].
  - apply translateText_appends.
  - intros req. apply app_appends. intros txt fromLang toLang w.
    destruct (translateText_appends rt txt fromLang toLang w) as (new & E & F).
    exists new. split; [exact E|].
    eapply Forall_impl; [exact F|]. intros c [_ Hc]. exact Hc.
  - intros s. apply substring_prefix_idem. lia.
  - intros s fromLang toLang w. rewrite !translateText_run. cbv zeta.
    rewrite substring_prefix_idem by lia. reflexivity.
  - exact Hsends.
  - intros txt fromLang toLang e w [Hfrom | [[from Hfrom] Hto]];
      rewrite translateText_run, Hfrom; [reflexivity|].
    rewrite Hto. reflexivity.
  - intros s w.
    rewrite (Hsends (substring s 0 500) (Str "auto") (Str "en") "auto" "en" w
               eq_refl eq_refl).
    rewrite substring_prefix_idem by lia. reflexivity.
Qed.

(** A run of C10 on a text of 1200 characters, from French to German. *)
Lemma translateText_truncates_to_500_witness :
  let rt := Example.runtime_with None (Ok Example.fixture)
              (Ok (Example.translated "hola")) in
  sent (Memory.translateText rt (Example.filler 1200) (Str "fr") (Str "de")
          Example.empty_world).2
  = [ {| url := "https://api.mymemory.translated.net/get";
         q := Example.filler 500;
         langpair := "fr|de";
         de := Some "your-email@example.com";
         timeout := 5000 |} ].
Proof.
  intros rt.
  exact (proj1 (proj2 (proj2 (proj2 (proj2
           (translateText_truncates_to_500 rt)))))
           (Example.filler 1200) (Str "fr") (Str "de") "fr" "de"
           Example.empty_world eq_refl eq_refl).
Defined.

(* ===================================================================== *)
(** ** The translation endpoint *)
(* ===================================================================== *)

Section Translate.
Context (rt : runtime).


Lemma guard_valid (s : string) :
  s ≠ "" →
  negb (truthy (Str s)) || negb (String.eqb (typeof (Str s)) "string") = false.
Proof.
  intros Hs. destruct s as [|c s]; [congruence | reflexivity].
Qed.

(** One run of the memory-backed [/translate] on a non-empty string. *)
Lemma memory_translate_run (body : value) (s : string) (w : world) :
  nullish body = false → get "text" body = Str s → s ≠ "" →
  Memory.translate rt body w =
    match Memory.translateText rt s
            match get "fromLang" body with Undefined => Str "auto" | v => v end
            match get "toLang" body with Undefined => Str "en" | v => v end
            w with
    | (Ok result, w') =>
        (Ok (res_json (Obj [("success", Bool true);
                            ("translatedText", result);
                            ("characters", Num (length s))])), w')
    | (Throw err, w') => (Ok (Memory.handleError rt err "Translation failed"), w')
    end.
Proof.
  intros Hbody Htext Hs.
  unfold Memory.translate, Memory.translate_try, Memory.translate_catch,
    Memory.destructure, try_catch, bind, ret.
  rewrite Hbody, Htext. cbv beta iota.
  rewrite (guard_valid s Hs).
  destruct (Memory.translateText _ _ _ _ w) as [[t|e] w']; reflexivity.
Qed.

(** One run of the disk-backed [/translate] on a non-empty string.  The
    two languages are converted to strings first; when a conversion
    throws, nothing is sent and the catch block answers. *)
Lemma disk_translate_run (body : value) (s : string) (w : world) :
  nullish body = false → get "text" body = Str s → s ≠ "" →
  let failed (msg : string) :=
    {| status := 500;
       json := Obj [("success", Bool false);
                    ("error", Str "Translation failed");
                    ("details", Str msg)] |} in
  Disk.translate rt body w =
    match ToString rt match get "fromLang" body with
                      | Undefined => Str "en" | v => v end with
    | Throw e => (Ok (failed (message e)), w)
    | Ok from =>
        match ToString rt match get "toLang" body with
                          | Undefined => Str "es" | v => v end with
        | Throw e => (Ok (failed (message e)), w)
        | Ok to =>
            let c := {| url := "https://api.mymemory.translated.net/get";
                        q := if 500 <? length s then substring s 0 500 else s;
                        langpair := from +:+ "|" +:+ to;
                        de := None;
                        timeout := 10000 |} in
            let w' := {| files := files w; sent := sent w ++ [c] |} in
            match provider rt c with
            | Throw err => (Ok (failed (message err)), w')
            | Ok data =>
                if truthy data && truthy (get "responseData" data)
                then (Ok (res_status_json 200
                            (Obj [("success", Bool true);
                                  ("translatedText",
                                   get "translatedText"
                                     (get "responseData" data))])),
                      w')
                else (Ok (failed "Invalid response from translation service"),
                      w')
            end
        end
    end.
Proof.
  intros Hbody Htext Hs failed.
  unfold Disk.translate, Disk.translate_try, Disk.translate_catch,
    Disk.destructure, try_catch, bind at 1 2, ret at 1.
  rewrite Hbody, Htext. cbv beta iota.
  rewrite (guard_valid s Hs).
  unfold language_pair, bind at 1 2 3, lift.
  destruct (ToString rt _) as [from|e]; [|reflexivity].
  destruct (ToString rt _) as [to|e]; [|reflexivity].
  unfold bind, axios_get, member, ret, throw. cbv zeta.
  destruct (provider rt _) as [data|e]; [|reflexivity].
  destruct (truthy data) eqn:Hd; cbv beta iota;
    [|rewrite Hd; reflexivity].
  assert (nullish data = false) as -> by (destruct data; done).
  cbv beta iota. rewrite andb_true_l.
  destruct (truthy (get "responseData" data)) eqn:Hr; [|reflexivity].
  assert (nullish (get "responseData" data) = false) as ->
    by (destruct (get "responseData" data); done).
  reflexivity.
Qed.


(** C6, as the code has it.  A [/translate] request with a non-empty
    string [text] whose two languages convert to strings leads to one
    provider call, for the pair of the two strings.  An omitted language
    always converts: in the memory-backed server an omitted [fromLang] is
    sent as "auto" and an omitted [toLang] as "en"; in the disk-backed
    server an omitted [fromLang] is sent as "en" and an omitted [toLang]
    as "es". *)
Theorem translate_default_languages (body : value) (s : string) (w : world) :
  nullish body = false → get "text" body = Str s → s ≠ "" →
  (∀ from to,
     ToString rt match get "fromLang" body with
                 | Undefined => Str "auto" | v => v end = Ok from →
     ToString rt match get "toLang" body with
                 | Undefined => Str "en" | v => v end = Ok to →
     ∃ c, sent (Memory.translate rt body w).2 = sent w ++ [c]
          ∧ langpair c = from +:+ "|" +:+ to
          ∧ (get "fromLang" body = Undefined → from = "auto")
          ∧ (get "toLang" body = Undefined → to = "en"))
  ∧ (∀ from to,
       ToString rt match get "fromLang" body with
                   | Undefined => Str "en" | v => v end = Ok from →
       ToString rt match get "toLang" body with
                   | Undefined => Str "es" | v => v end = Ok to →
       ∃ c, sent (Disk.translate rt body w).2 = sent w ++ [c]
            ∧ langpair c = from +:+ "|" +:+ to
            ∧ (get "fromLang" body = Undefined → from = "en")
            ∧ (get "toLang" body = Undefined → to = "es"))
  ∧ (get "fromLang" body = Undefined → get "toLang" body = Undefined →
     (∃ c, sent (Memory.translate rt body w).2 = sent w ++ [c]
           ∧ langpair c = "auto|en")
     ∧ (∃ c, sent (Disk.translate rt body w).2 = sent w ++ [c]
             ∧ langpair c = "en|es")).
Proof.
  intros Hbody Htext Hs.
  assert (∀ from to,
            ToString rt match get "fromLang" body with
                        | Undefined => Str "auto" | v => v end = Ok from →
            ToString rt match get "toLang" body with
                        | Undefined => Str "en" | v => v end = Ok to →
            ∃ c, sent (Memory.translate rt body w).2 = sent w ++ [c]
                 ∧ langpair c = from +:+ "|" +:+ to
                 ∧ (get "fromLang" body = Undefined → from = "auto")
                 ∧ (get "toLang" body = Undefined → to = "en")) as Hmemory.
  { intros from to Hfrom Hto.
    rewrite (memory_translate_run body s w Hbody Htext Hs).
    rewrite translateText_run, Hfrom, Hto. cbv zeta. eexists. split.
    - destruct (provider rt _) as [data|e]; [|reflexivity].
      destruct (truthy (opt_get _ _)); [reflexivity|].
      destruct (ToString rt (or_else _ _)); reflexivity.
    - split; [reflexivity|]. split; intros Homitted;
        rewrite Homitted in *; simpl in *; congruence. }
  assert (∀ from to,
            ToString rt match get "fromLang" body with
                        | Undefined => Str "en" | v => v end = Ok from →
            ToString rt match get "toLang" body with
                        | Undefined => Str "es" | v => v end = Ok to →
            ∃ c, sent (Disk.translate rt body w).2 = sent w ++ [c]
                 ∧ langpair c = from +:+ "|" +:+ to
                 ∧ (get "fromLang" body = Undefined → from = "en")
                 ∧ (get "toLang" body = Undefined → to = "es")) as Hdisk.
  { intros from to Hfrom Hto.
    rewrite (disk_translate_run body s w Hbody Htext Hs).
    cbv zeta. rewrite Hfrom, Hto. eexists. split.
    - destruct (provider rt _) as [data|e]; [|reflexivity].
      destruct (truthy data && _); reflexivity.
    - split; [reflexivity|]. split; intros Homitted;
        rewrite Homitted in *; simpl in *; congruence. }
  split; [exact Hmemory|]. split; [exact Hdisk|].
  intros Hfrom Hto. split.
  - destruct (Hmemory "auto" "en") as (c & Hsent & Hpair & _);
      [rewrite Hfrom; reflexivity | rewrite Hto; reflexivity |].
    exists c. split; [exact Hsent | exact Hpair].
  - destruct (Hdisk "en" "es") as (c & Hsent & Hpair & _);
      [rewrite Hfrom; reflexivity | rewrite Hto; reflexivity |].
    exists c. split; [exact Hsent | exact Hpair].
Qed.

End Translate.



(** C6 as stated fails: with [fromLang] and [toLang] omitted the
    disk-backed server asks the provider for "en|es", not "auto|en". *)
Lemma translate_default_languages_counterexample :
  ¬ (∀ (rt : runtime) (body : value) (s : string) (w : world),
       nullish body = false → get "text" body = Str s → s ≠ "" →
       get "fromLang" body = Undefined → get "toLang" body = Undefined →
       (∃ c, sent (Memory.translate rt body w).2 = sent w ++ [c]
             ∧ langpair c = "auto|en")
       ∧ (∃ c, sent (Disk.translate rt body w).2 = sent w ++ [c]
               ∧ langpair c = "auto|en")).
Proof.
  intros Hclaim.
  destruct (Hclaim (Example.runtime_with None (Ok Example.fixture)
                      (Ok (Example.translated "hola")))
                   (Obj [("text", Str "hello")]) "hello" Example.empty_world
                   eq_refl eq_refl ltac:(discriminate) eq_refl eq_refl)
    as [_ (c & Hsent & Hpair)].
  vm_compute in Hsent. inversion Hsent; subst c.
  vm_compute in Hpair. discriminate Hpair.
Qed.

(** A run of the amended C6 on a body that holds only [text]. *)
Lemma translate_default_languages_witness :
  let rt := Example.runtime_with None (Ok Example.fixture)
              (Ok (Example.translated "hola")) in
  let body := Obj [("text", Str "hello")] in
  (∃ c, sent (Memory.translate rt body Example.empty_world).2 = [c]
        ∧ langpair c = "auto|en")
  ∧ (∃ c, sent (Disk.translate rt body Example.empty_world).2 = [c]
          ∧ langpair c = "en|es").
Proof.
  intros rt body.
  exact (proj2 (proj2 (translate_default_languages rt body "hello"
                         Example.empty_world
                         eq_refl eq_refl ltac:(discriminate)))
           eq_refl eq_refl).
Defined.

(* ===================================================================== *)
(** ** The extraction endpoint *)
(* ===================================================================== *)

Section ExtractText.
Context (rt : runtime).

(** One run of the disk-backed [/extract-text] on a staged file that the
    parser accepts. *)
Lemma disk_extract_text_run
    (f : Disk.file) (dataBuffer : buffer) (data : pdf_data) (w : world) :
  files w !! Disk.file_path f = Some dataBuffer →
  pdf rt dataBuffer = Ok data →
  Disk.extract_text rt (Some f) w
  = (Ok {| status := 200;
           json := Obj [("success", Bool true); ("text", Str (text data))] |},
     {| files := delete (Disk.file_path f) (files w); sent := sent w |}).
Proof.
  intros Hfile Hpdf.
  unfold Disk.extract_text, Disk.extract_text_try, Disk.extract_text_catch, try_catch, bind, readFileSync, lift, unlinkSync.
  rewrite Hfile, Hpdf, Hfile. reflexivity.
Qed.

(** One run of the memory-backed [/extract-text] on a file that the parser
    accepts. *)
Lemma memory_extract_text_run (f : Memory.file) (data : pdf_data) (w : world) :
  pdf rt (Memory.file_buffer f) = Ok data →
  Memory.extract_text rt (Some f) w
  = (Ok {| status := 200;
           json := Obj [("success", Bool true);
                        ("text", Str (text data));
                        ("pages", Num (numpages data));
                        ("textLength", Num (length (text data)))] |},
     w).
Proof.
  intros Hpdf. unfold Memory.extract_text, Memory.extract_text_try, Memory.extract_text_catch, try_catch, bind, lift.
  rewrite Hpdf. reflexivity.
Qed.

(** C7, as the code has it.  When the parser accepts the file, the
    memory-backed [/extract-text] answers 200 with [success: true], the
    whole [text], [pages] and [textLength]; the disk-backed
    [/extract-text] answers 200 with [success: true] and the whole [text]
    only. *)
Theorem extract_text_success_body
    (mf : Memory.file) (df : Disk.file) (data : pdf_data) (w : world) :
  pdf rt (Memory.file_buffer mf) = Ok data →
  files w !! Disk.file_path df = Some (Memory.file_buffer mf) →
  (∃ r w', Memory.extract_text rt (Some mf) w = (Ok r, w')
           ∧ status r = 200
           ∧ json r = Obj [("success", Bool true);
                           ("text", Str (text data));
                           ("pages", Num (numpages data));
                           ("textLength", Num (length (text data)))])
  ∧ (∃ r w', Disk.extract_text rt (Some df) w = (Ok r, w')
             ∧ status r = 200
             ∧ json r = Obj [("success", Bool true);
                             ("text", Str (text data))]
             ∧ has_field "pages" (json r) = false
             ∧ has_field "textLength" (json r) = false).
Proof.
  intros Hpdf Hfile. split.
  - rewrite (memory_extract_text_run mf data w Hpdf).
    eexists _, _. repeat split; reflexivity.
  - rewrite (disk_extract_text_run df _ data w Hfile Hpdf).
    eexists _, _. repeat split; reflexivity.
Qed.

(** C9. In the disk-backed server, [/extract-text] with an uploaded file
    always answers, and when it has answered the file that was staged
    for the request is no longer on disk: whether it was parsed, the parser
    failed, or it could not be read.  The same holds for the whole
    request, from the upload middleware on. *)
Theorem extract_text_removes_upload (f : Disk.file) (w : world) :
  (∃ r, (Disk.extract_text rt (Some f) w).1 = Ok r)
  ∧ files (Disk.extract_text rt (Some f) w).2 !! Disk.file_path f = None
  ∧ (∀ req w1,
       method req = "POST" → path req = "/extract-text" →
       Disk.upload_single rt "pdf" (upload req) w = (Ok (Some f), w1) →
       ∃ r w', Disk.app rt req w = (Ok (Sent r), w')
               ∧ files w' !! Disk.file_path f = None).
Proof.
  assert (∀ w0, (∃ r, (Disk.extract_text rt (Some f) w0).1 = Ok r)
                ∧ files (Disk.extract_text rt (Some f) w0).2
                    !! Disk.file_path f = None) as Hhandler.
  { intros w0.
    unfold Disk.extract_text, Disk.extract_text_try, Disk.extract_text_catch, try_catch, bind, readFileSync, lift,
      unlinkSync, existsSync, ret.
    destruct (files w0 !! Disk.file_path f) as [dataBuffer|] eqn:Hfile.
    - destruct (pdf rt dataBuffer) as [data|e].
      + rewrite Hfile. simpl. split; [eauto|]. apply lookup_delete_eq.
      + rewrite Hfile. simpl. rewrite Hfile. simpl.
        split; [eauto|]. apply lookup_delete_eq.
    - rewrite Hfile. simpl. split; [eauto | exact Hfile]. }
  split; [apply Hhandler|]. split; [apply Hhandler|].
  intros req w1 Hmethod Hpath Hupload.
  unfold Disk.app. rewrite Hmethod, Hpath.
  cbn [String.eqb Ascii.eqb Bool.eqb andb].
  unfold Disk.with_upload. rewrite Hupload.
  destruct (Hhandler w1) as ([r Hr] & Hgone).
  destruct (Disk.extract_text rt (Some f) w1) as [res w'].
  simpl in Hr, Hgone. subst res. eauto.
Qed.

End ExtractText.

(** C7 as stated fails: the success response of the disk-backed
    [/extract-text] has neither [pages] nor [textLength]. *)
Lemma extract_text_success_body_counterexample :
  ¬ (∀ (rt : runtime) (f : Disk.file) (w w' : world) (r : response),
       Disk.extract_text rt (Some f) w = (Ok r, w') → success r →
       has_field "text" (json r) = true
       ∧ has_field "pages" (json r) = true
       ∧ has_field "textLength" (json r) = true).
Proof.
  intros Hclaim.
  pose (rt := Example.runtime_with None (Ok Example.fixture)
                (Ok (Example.translated "hola"))).
  pose proof (disk_extract_text_run rt Example.disk_file [] Example.fixture
                Example.staged_world eq_refl eq_refl) as Hrun.
  destruct (Hclaim _ _ _ _ _ Hrun eq_refl) as (_ & Hpages & _).
  discriminate Hpages.
Qed.

(** A run of the amended C7 on the fixture. *)
Lemma extract_text_success_body_witness :
  let rt := Example.runtime_with None (Ok Example.fixture)
              (Ok (Example.translated "hola")) in
  (∃ r w', Memory.extract_text rt (Some Example.memory_file)
             Example.staged_world = (Ok r, w')
           ∧ status r = 200
           ∧ json r = Obj [("success", Bool true);
                           ("text", Str (Example.filler 1200));
                           ("pages", Num 3);
                           ("textLength", Num 1200)])
  ∧ (∃ r w', Disk.extract_text rt (Some Example.disk_file)
               Example.staged_world = (Ok r, w')
             ∧ status r = 200
             ∧ json r = Obj [("success", Bool true);
                             ("text", Str (Example.filler 1200))]
             ∧ has_field "pages" (json r) = false
             ∧ has_field "textLength" (json r) = false).
Proof.
  intros rt.
  exact (extract_text_success_body rt Example.memory_file Example.disk_file
           Example.fixture Example.staged_world eq_refl eq_refl).
Defined.

(* ===================================================================== *)
(** ** What the handlers can answer *)
(* ===================================================================== *)

Section Returns.
Context {A B : Type}.

Lemma returns_ret (Q : A → Prop) (a : A) : Q a → returns Q (ret a).
Proof. intros Ha w a' w' E. inversion E; subst. exact Ha. Qed.

Lemma returns_throw (Q : A → Prop) (e : Error) : returns Q (throw e).
Proof. intros w a' w' E. discriminate E. Qed.

Lemma returns_bind (Q : B → Prop) (m : M A) (k : A → M B) :
  (∀ a, returns Q (k a)) → returns Q (bind m k).
Proof.
  intros Hk w b w' E. unfold bind in E.
  destruct (m w) as [[a|e] w1]; [|discriminate E].
  exact (Hk a w1 b w' E).
Qed.

Lemma returns_try_catch (Q : A → Prop) (m : M A) (h : Error → M A) :
  returns Q m → (∀ e, returns Q (h e)) → returns Q (try_catch m h).
Proof.
  intros Hm Hh w a w' E. unfold try_catch in E.
  destruct (m w) as [[a1|e] w1] eqn:Em.
  - inversion E; subst. exact (Hm w a w' Em).
  - exact (Hh e w1 a w' E).
Qed.

Lemma total_ret (a : A) : total (ret a).
Proof. intros w. exists a, w. reflexivity. Qed.

Lemma total_try_catch (m : M A) (h : Error → M A) :
  (∀ e, total (h e)) → total (try_catch m h).
Proof.
  intros Hh w. unfold try_catch.
  destruct (m w) as [[a|e] w1]; [exists a, w1; reflexivity | apply Hh].
Qed.

End Returns.

Ltac returns_step :=
  first [ apply returns_try_catch; [| intros ? ]
        | apply returns_bind; intros ?
        | apply returns_throw
        | apply returns_ret ].

Section Answers.
Context (rt : runtime).

(** A [try] block answers a failure only as a rejected request: with
    status 400 and without [details]. *)
Lemma memory_try_blocks_reject (req_file : option Memory.file) (body : value) :
  returns (λ r, failure r →
                status r = 400 ∧ has_field "details" (json r) = false)
          (Memory.process_pdf_try rt req_file)
  ∧ returns (λ r, failure r →
                  status r = 400 ∧ has_field "details" (json r) = false)
            (Memory.extract_text_try rt req_file)
  ∧ returns (λ r, failure r →
                  status r = 400 ∧ has_field "details" (json r) = false)
            (Memory.translate_try rt body).
Proof.
  split; [|split].
  - unfold Memory.process_pdf_try. destruct req_file as [f|].
    + do 2 returns_step. apply returns_ret. intros Hf. discriminate Hf.
    + apply returns_ret. intros _. split; reflexivity.
  - unfold Memory.extract_text_try. destruct req_file as [f|].
    + returns_step. apply returns_ret. intros Hf. discriminate Hf.
    + apply returns_ret. intros _. split; reflexivity.
  - unfold Memory.translate_try.
    apply returns_bind. intros [[txt fromLang] toLang].
    destruct (negb (truthy txt) || _).
    + apply returns_ret. intros _. split; reflexivity.
    + destruct txt; try apply returns_throw.
      returns_step. apply returns_ret. intros Hf. discriminate Hf.
Qed.

Lemma disk_try_blocks_reject (req_file : option Disk.file) (body : value) :
  returns (λ r, failure r →
                status r = 400 ∧ has_field "details" (json r) = false)
          (Disk.extract_text_try rt req_file)
  ∧ returns (λ r, failure r →
                  status r = 400 ∧ has_field "details" (json r) = false)
            (Disk.translate_try rt body).
Proof.
  split.
  - unfold Disk.extract_text_try. destruct req_file as [f|].
    + do 3 returns_step. apply returns_ret. intros Hf. discriminate Hf.
    + apply returns_ret. intros _. split; reflexivity.
  - unfold Disk.translate_try.
    apply returns_bind. intros [[txt fromLang] toLang].
    destruct (negb (truthy txt) || _).
    + apply returns_ret. intros _. split; reflexivity.
    + destruct txt; try apply returns_throw.
      do 3 returns_step. destruct (truthy _); [|apply returns_throw].
      do 2 returns_step. apply returns_ret. intros Hf. discriminate Hf.
Qed.

(** What the [catch] block of the disk-backed [/extract-text] answers. *)
Lemma disk_extract_text_catch_answer (req_file : option Disk.file) (err : Error) :
  returns (λ r, r = {| status := 500;
                       json := Obj [("success", Bool false);
                                    ("error", Str "Failed to process PDF");
                                    ("details", Str (message err))] |})
          (Disk.extract_text_catch rt req_file err).
Proof.
  unfold Disk.extract_text_catch. returns_step. apply returns_ret. reflexivity.
Qed.

(** A failure that a handler answers is the answer of its [try] block or
    of its [catch] block on what the [try] block threw. *)
Lemma try_catch_answer {A} (m : M A) (h : Error → M A) (w w' : world) (a : A) :
  try_catch m h w = (Ok a, w') →
  m w = (Ok a, w') ∨ ∃ err w1, m w = (Throw err, w1) ∧ h err w1 = (Ok a, w').
Proof.
  unfold try_catch. destruct (m w) as [[a0|err] w1]; intros Hrun.
  - left. exact Hrun.
  - right. exists err, w1. split; [reflexivity | exact Hrun].
Qed.

Lemma memory_process_pdf_failure (w w' : world) (r : response) :
  ∀ req_file,
            Memory.process_pdf rt req_file w = (Ok r, w') → failure r →
            (Memory.process_pdf_try rt req_file w = (Ok r, w')
             ∧ status r = 400 ∧ has_field "details" (json r) = false)
            ∨ (∃ err, Memory.process_pdf_try rt req_file w = (Throw err, w')
                      ∧ status r = 500
                      ∧ json r = Obj (("success", Bool false)
                                      :: ("error", Str "PDF processing failed")
                                      :: if development rt
                                         then [("details", Str (message err))]
                                         else [])).
Proof.
  intros req_file Hrun Hf.
    destruct (try_catch_answer _ _ _ _ _ Hrun)
      as [Htry | (err & w1 & Htry & Hcatch)].
    - left. split; [exact Htry|].
      exact (proj1 (memory_try_blocks_reject req_file Undefined) _ _ _ Htry Hf).
    - right. exists err. unfold Memory.process_pdf_catch, ret in Hcatch.
      inversion Hcatch; subst. split; [exact Htry|]. split; [reflexivity|].
      destruct (development rt); reflexivity.
Qed.

Lemma memory_extract_text_failure (w w' : world) (r : response) :
  ∀ req_file,
            Memory.extract_text rt req_file w = (Ok r, w') → failure r →
            (Memory.extract_text_try rt req_file w = (Ok r, w')
             ∧ status r = 400 ∧ has_field "details" (json r) = false)
            ∨ (∃ err, Memory.extract_text_try rt req_file w = (Throw err, w')
                      ∧ status r = 500
                      ∧ json r
                        = Obj (("success", Bool false)
                               :: ("error", Str "Text extraction failed")
                               :: if development rt
                                  then [("details",
                                         Obj [("message", Str (message err));
                                              ("stack", Str (stack err))])]
                                  else [])).
Proof.
  intros req_file Hrun Hf.
    destruct (try_catch_answer _ _ _ _ _ Hrun)
      as [Htry | (err & w1 & Htry & Hcatch)].
    - left. split; [exact Htry|].
      exact (proj1 (proj2 (memory_try_blocks_reject req_file Undefined))
               _ _ _ Htry Hf).
    - right. exists err.
      unfold Memory.extract_text_catch, Memory.handleError, ret in Hcatch.
      inversion Hcatch; subst. split; [exact Htry|]. split; [reflexivity|].
      destruct (development rt); reflexivity.
Qed.

Lemma memory_translate_failure (w w' : world) (r : response) :
  ∀ body,
            Memory.translate rt body w = (Ok r, w') → failure r →
            (Memory.translate_try rt body w = (Ok r, w')
             ∧ status r = 400 ∧ has_field "details" (json r) = false)
            ∨ (∃ err, Memory.translate_try rt body w = (Throw err, w')
                      ∧ status r = 500
                      ∧ json r
                        = Obj (("success", Bool false)
                               :: ("error", Str "Translation failed")
                               :: if development rt
                                  then [("details",
                                         Obj [("message", Str (message err));
                                              ("stack", Str (stack err))])]
                                  else [])).
Proof.
  intros body Hrun Hf.
    destruct (try_catch_answer _ _ _ _ _ Hrun)
      as [Htry | (err & w1 & Htry & Hcatch)].
    - left. split; [exact Htry|].
      exact (proj2 (proj2 (memory_try_blocks_reject None body))
               _ _ _ Htry Hf).
    - right. exists err.
      unfold Memory.translate_catch, Memory.handleError, ret in Hcatch.
      inversion Hcatch; subst. split; [exact Htry|]. split; [reflexivity|].
      destruct (development rt); reflexivity.
Qed.

Lemma disk_extract_text_failure (w w' : world) (r : response) :
  ∀ req_file,
            Disk.extract_text rt req_file w = (Ok r, w') → failure r →
            (Disk.extract_text_try rt req_file w = (Ok r, w')
             ∧ status r = 400 ∧ has_field "details" (json r) = false)
            ∨ (∃ err w1, Disk.extract_text_try rt req_file w = (Throw err, w1)
                         ∧ status r = 500
                         ∧ json r = Obj [("success", Bool false);
                                         ("error", Str "Failed to process PDF");
                                         ("details", Str (message err))]).
Proof.
  intros req_file Hrun Hf.
    destruct (try_catch_answer _ _ _ _ _ Hrun)
      as [Htry | (err & w1 & Htry & Hcatch)].
    - left. split; [exact Htry|].
      exact (proj1 (disk_try_blocks_reject req_file Undefined) _ _ _ Htry Hf).
    - right. exists err, w1. split; [exact Htry|].
      rewrite (disk_extract_text_catch_answer req_file err _ _ _ Hcatch).
      split; reflexivity.
Qed.

Lemma disk_translate_failure (w w' : world) (r : response) :
  ∀ body,
            Disk.translate rt body w = (Ok r, w') → failure r →
            (Disk.translate_try rt body w = (Ok r, w')
             ∧ status r = 400 ∧ has_field "details" (json r) = false)
            ∨ (∃ err, Disk.translate_try rt body w = (Throw err, w')
                      ∧ status r = 500
                      ∧ json r = Obj [("success", Bool false);
                                      ("error", Str "Translation failed");
                                      ("details", Str (message err))]).
Proof.
  intros body Hrun Hf.
    destruct (try_catch_answer _ _ _ _ _ Hrun)
      as [Htry | (err & w1 & Htry & Hcatch)].
    - left. split; [exact Htry|].
      exact (proj2 (disk_try_blocks_reject None body) _ _ _ Htry Hf).
    - right. exists err. unfold Disk.translate_catch, ret in Hcatch.
      inversion Hcatch; subst. split; [exact Htry|]. split; reflexivity.
Qed.

(** C1, as the code has it.  A failure that a handler answers comes
    either from its [try] block, and then it is a rejected request with
    status 400 and no [details], or from its [catch] block, and then it
    has status 500 and is built from the error [err] that the [try] block
    threw.  In the memory-backed server the body of such a response has
    [details] exactly when [NODE_ENV] is "development": the message of
    [err] on [/process-pdf], its message and stack on [/extract-text] and
    [/translate].  In the disk-backed server the body has the message of
    [err] in [details] whatever [NODE_ENV] is, and so has the answer of
    the error-handling middleware.  For whole requests: a failure response
    of the memory-backed server has status 400 and no [details], or
    status 500 and [details] exactly in development; a failure response of
    the disk-backed server has status 400 and no [details], or status 500
    and a message in [details]. *)
Theorem failure_details (req : request) (w w' : world) (r : response) :
  (∀ req_file,
     Memory.process_pdf rt req_file w = (Ok r, w') → failure r →
     (Memory.process_pdf_try rt req_file w = (Ok r, w')
      ∧ status r = 400 ∧ has_field "details" (json r) = false)
     ∨ (∃ err, Memory.process_pdf_try rt req_file w = (Throw err, w')
               ∧ status r = 500
               ∧ json r = Obj (("success", Bool false)
                               :: ("error", Str "PDF processing failed")
                               :: if development rt
                                  then [("details", Str (message err))]
                                  else [])))
  ∧ (∀ req_file,
       Memory.extract_text rt req_file w = (Ok r, w') → failure r →
       (Memory.extract_text_try rt req_file w = (Ok r, w')
        ∧ status r = 400 ∧ has_field "details" (json r) = false)
       ∨ (∃ err, Memory.extract_text_try rt req_file w = (Throw err, w')
                 ∧ status r = 500
                 ∧ json r = Obj (("success", Bool false)
                                 :: ("error", Str "Text extraction failed")
                                 :: if development rt
                                    then [("details",
                                           Obj [("message", Str (message err));
                                                ("stack", Str (stack err))])]
                                    else [])))
  ∧ (∀ body,
       Memory.translate rt body w = (Ok r, w') → failure r →
       (Memory.translate_try rt body w = (Ok r, w')
        ∧ status r = 400 ∧ has_field "details" (json r) = false)
       ∨ (∃ err, Memory.translate_try rt body w = (Throw err, w')
                 ∧ status r = 500
                 ∧ json r = Obj (("success", Bool false)
                                 :: ("error", Str "Translation failed")
                                 :: if development rt
                                    then [("details",
                                           Obj [("message", Str (message err));
                                                ("stack", Str (stack err))])]
                                    else [])))
  ∧ (∀ req_file,
       Disk.extract_text rt req_file w = (Ok r, w') → failure r →
       (Disk.extract_text_try rt req_file w = (Ok r, w')
        ∧ status r = 400 ∧ has_field "details" (json r) = false)
       ∨ (∃ err w1, Disk.extract_text_try rt req_file w = (Throw err, w1)
                    ∧ status r = 500
                    ∧ json r = Obj [("success", Bool false);
                                    ("error", Str "Failed to process PDF");
                                    ("details", Str (message err))]))
  ∧ (∀ body,
       Disk.translate rt body w = (Ok r, w') → failure r →
       (Disk.translate_try rt body w = (Ok r, w')
        ∧ status r = 400 ∧ has_field "details" (json r) = false)
       ∨ (∃ err, Disk.translate_try rt body w = (Throw err, w')
                 ∧ status r = 500
                 ∧ json r = Obj [("success", Bool false);
                                 ("error", Str "Translation failed");
                                 ("details", Str (message err))]))
  ∧ (∀ err,
       Disk.error_middleware err
       = {| status := 500;
            json := Obj [("success", Bool false);
                         ("error", Str "Internal server error");
                         ("details", Str (message err))] |})
  ∧ (Memory.app rt req w = (Ok (Sent r), w') →
     details_gated (development rt) r)
  ∧ (Disk.app rt req w = (Ok (Sent r), w') → details_always r).
Proof.
  split; [apply memory_process_pdf_failure|].
  split; [apply memory_extract_text_failure|].
  split; [apply memory_translate_failure|].
  split; [apply disk_extract_text_failure|].
  split; [apply disk_translate_failure|]. split; [reflexivity|].
  split.
  - unfold Memory.app, Memory.with_upload, Memory.without_upload, ret.
    repeat case_match; intros E; inversion E; subst; intros Hf;
      try discriminate Hf.
    + destruct (memory_process_pdf_failure _ _ _ _ ltac:(eassumption) Hf)
        as [(_ & Hs & Hd) | (err & _ & Hs & Hj)].
      * left. auto.
      * right. split; [exact Hs|]. rewrite Hj.
        destruct (development rt); reflexivity.
    + destruct (memory_extract_text_failure _ _ _ _ ltac:(eassumption) Hf)
        as [(_ & Hs & Hd) | (err & _ & Hs & Hj)].
      * left. auto.
      * right. split; [exact Hs|]. rewrite Hj.
        destruct (development rt); reflexivity.
    + destruct (memory_translate_failure _ _ _ _ ltac:(eassumption) Hf)
        as [(_ & Hs & Hd) | (err & _ & Hs & Hj)].
      * left. auto.
      * right. split; [exact Hs|]. rewrite Hj.
        destruct (development rt); reflexivity.
  - unfold Disk.app, Disk.with_upload, Disk.without_upload, ret.
    repeat case_match; intros E; inversion E; subst; intros Hf;
      try discriminate Hf.
    + destruct (disk_extract_text_failure _ _ _ _ ltac:(eassumption) Hf)
        as [(_ & Hs & Hd) | (err & w1 & _ & Hs & Hj)].
      * left. auto.
      * right. split; [exact Hs|]. rewrite Hj. eexists. reflexivity.
    + right. split; [reflexivity | eexists; reflexivity].
    + destruct (disk_translate_failure _ _ _ _ ltac:(eassumption) Hf)
        as [(_ & Hs & Hd) | (err & _ & Hs & Hj)].
      * left. auto.
      * right. split; [exact Hs|]. rewrite Hj. eexists. reflexivity.
Qed.

End Answers.

(** C1 as stated fails: under [NODE_ENV=production] the disk-backed
    [/translate] answers a provider timeout with the error message in
    [details]. *)
Lemma failure_details_counterexample :
  ¬ (∀ (rt : runtime) (req : request) (w w' : world) (r : response),
       (Memory.app rt req w = (Ok (Sent r), w') → failure r →
        has_field "details" (json r) = development rt)
       ∧ (Disk.app rt req w = (Ok (Sent r), w') → failure r →
          has_field "details" (json r) = development rt)).
Proof.
  intros Hclaim.
  pose (rt := Example.runtime_with (Some "production") (Ok Example.fixture)
                (Throw Example.timed_out)).
  pose (req := Example.post "/translate" (Obj [("text", Str "hello")]) None).
  destruct (Disk.app rt req Example.empty_world) as [[[r| | |]|e] w'] eqn:Hrun;
    try (vm_compute in Hrun; discriminate Hrun).
  destruct (Hclaim rt req Example.empty_world w' r) as [_ Hdisk].
  assert (json r = Obj [("success", Bool false);
                        ("error", Str "Translation failed");
                        ("details", Str "timeout of 5000ms exceeded")]) as Hr.
  { vm_compute in Hrun. inversion Hrun. reflexivity. }
  assert (failure r) as Hf by (unfold failure; rewrite Hr; reflexivity).
  specialize (Hdisk Hrun Hf). rewrite Hr in Hdisk.
  vm_compute in Hdisk. discriminate Hdisk.
Qed.

(** A run of the amended C1: under [NODE_ENV=development] the
    memory-backed [/translate] answers a provider timeout with status 500
    and the error's message and stack in [details]. *)
Lemma failure_details_witness :
  let rt := Example.runtime_with (Some "development") (Ok Example.fixture)
              (Throw Example.timed_out) in
  let body := Obj [("text", Str "hello")] in
  ∃ r w', Memory.translate rt body Example.empty_world = (Ok r, w')
          ∧ status r = 500
          ∧ json r = Obj [("success", Bool false);
                          ("error", Str "Translation failed");
                          ("details",
                           Obj [("message", Str "timeout of 5000ms exceeded");
                                ("stack", Str "AxiosError")])].
Proof.
  intros rt body.
  destruct (Memory.translate rt body Example.empty_world)
    as [[r|e] w'] eqn:Hrun; [|vm_compute in Hrun; discriminate Hrun].
  assert (failure r) as Hf.
  { vm_compute in Hrun. inversion Hrun. reflexivity. }
  exists r, w'. split; [reflexivity|].
  destruct (proj1 (proj2 (proj2
              (failure_details rt (Example.post "/translate" body None)
                 Example.empty_world w' r))) body Hrun Hf)
    as [(Htry & _) | (err & Htry & Hstatus & Hjson)].
  - vm_compute in Htry. discriminate Htry.
  - split; [exact Hstatus|]. rewrite Hjson.
    vm_compute in Htry. inversion Htry; subst err. reflexivity.
Defined.

(* ===================================================================== *)
(** ** Failures that leave the envelope *)
(* ===================================================================== *)

Section Escapes.
Context (rt : runtime).

(** Whatever a handler of either server answers, a failure among its
    answers has the envelope. *)
Lemma memory_handlers_enveloped
    (req_file : option Memory.file) (body : value) :
  returns (λ r, failure r → envelope r) (Memory.process_pdf rt req_file)
  ∧ returns (λ r, failure r → envelope r) (Memory.extract_text rt req_file)
  ∧ returns (λ r, failure r → envelope r) (Memory.translate rt body).
Proof.
  assert (∀ r, success r ∨ envelope r → failure r → envelope r) as Hcase.
  { intros r [Hs|He] Hf; [|exact He].
    unfold success, failure in *. congruence. }
  split; [|split].
  - unfold Memory.process_pdf, Memory.process_pdf_try, Memory.process_pdf_catch.
    apply returns_try_catch; [destruct req_file as [f|]|intros err];
      repeat returns_step; apply Hcase;
      first [ left; reflexivity | right; split; [|eexists]; reflexivity ].
  - unfold Memory.extract_text, Memory.extract_text_try, Memory.extract_text_catch.
    apply returns_try_catch; [destruct req_file as [f|]|intros err];
      repeat returns_step; apply Hcase;
      first [ left; reflexivity | right; split; [|eexists]; reflexivity ].
  - unfold Memory.translate, Memory.translate_try, Memory.translate_catch.
    apply returns_try_catch; [|intros err; returns_step; apply Hcase; right;
                                split; [|eexists]; reflexivity].
    apply returns_bind. intros [[txt fromLang] toLang].
    destruct (negb (truthy txt) || _); [|destruct txt];
      repeat returns_step; apply Hcase;
      first [ left; reflexivity | right; split; [|eexists]; reflexivity ].
Qed.

Lemma disk_handlers_enveloped (req_file : option Disk.file) (body : value) :
  returns (λ r, failure r → envelope r) (Disk.extract_text rt req_file)
  ∧ returns (λ r, failure r → envelope r) (Disk.translate rt body).
Proof.
  assert (∀ r, success r ∨ envelope r → failure r → envelope r) as Hcase.
  { intros r [Hs|He] Hf; [|exact He].
    unfold success, failure in *. congruence. }
  split.
  - unfold Disk.extract_text, Disk.extract_text_try, Disk.extract_text_catch.
    apply returns_try_catch; [destruct req_file as [f|]|intros err];
      repeat returns_step; apply Hcase;
      first [ left; reflexivity | right; split; [|eexists]; reflexivity ].
  - unfold Disk.translate, Disk.translate_try, Disk.translate_catch.
    apply returns_try_catch; [|intros err; returns_step; apply Hcase; right;
                                split; [|eexists]; reflexivity].
    apply returns_bind. intros [[txt fromLang] toLang].
    destruct (negb (truthy txt) || _); [|destruct txt];
      try (do 3 returns_step; destruct (truthy _));
      repeat returns_step; apply Hcase;
      first [ left; reflexivity | right; split; [|eexists]; reflexivity ].
Qed.

(** The handlers of the disk-backed server always answer. *)
Lemma disk_handlers_total (req_file : option Disk.file) (body : value) :
  total (Disk.extract_text rt req_file) ∧ total (Disk.translate rt body).
Proof.
  split.
  - unfold Disk.extract_text, Disk.extract_text_try, Disk.extract_text_catch. apply total_try_catch. intros err w.
    unfold bind, existsSync, unlinkSync, ret.
    destruct req_file as [f|]; [|eauto].
    destruct (files w !! Disk.file_path f) eqn:Hfile; simpl;
      rewrite ?Hfile; eauto.
  - unfold Disk.translate, Disk.translate_try, Disk.translate_catch. apply total_try_catch. intros err. apply total_ret.
Qed.

(** In the disk-backed server every request to a route is answered by the
    code of the server, and a failure among the answers has the envelope:
    the error-handling middleware catches what the upload middleware
    rejects. *)
Lemma disk_app_enveloped (req : request) (w : world) :
  ∃ o w', Disk.app rt req w = (Ok o, w')
          ∧ (o = NoRoute ∨ ∃ r, o = Sent r ∧ (failure r → envelope r)).
Proof.
  unfold Disk.app, Disk.with_upload, Disk.without_upload, ret.
  destruct (_ && _); [eexists _, _; split; [reflexivity|]; right;
                      eexists; split; [reflexivity|]; intros Hf;
                      discriminate Hf|].
  destruct (_ && _).
  - destruct (Disk.upload_single rt "pdf" (upload req) w) as [[req_file|e] w1].
    + destruct (proj1 (disk_handlers_total req_file Undefined) w1)
        as (r & w2 & Hrun).
      rewrite Hrun. eexists _, _. split; [reflexivity|]. right.
      exists r. split; [reflexivity|].
      exact (proj1 (disk_handlers_enveloped req_file Undefined) _ _ _ Hrun).
    + eexists _, _. split; [reflexivity|]. right.
      eexists. split; [reflexivity|]. intros _.
      split; [reflexivity | eexists; reflexivity].
  - destruct (_ && _); [|eexists _, _; split; [reflexivity | left; reflexivity]].
    destruct (proj2 (disk_handlers_total None (body req)) w) as (r & w2 & Hrun).
    rewrite Hrun. eexists _, _. split; [reflexivity|]. right.
    exists r. split; [reflexivity|].
    exact (proj2 (disk_handlers_enveloped None (body req)) _ _ _ Hrun).
Qed.

(** In the disk-backed server an upload that the middleware rejects is
    answered by the error-handling middleware, with the envelope. *)
Lemma disk_upload_rejection_enveloped (w : world) :
  ∃ r, Disk.app rt (Example.post "/extract-text" Undefined
                      (Some Example.text_upload)) w = (Ok (Sent r), w)
       ∧ status r = 500 ∧ envelope r.
Proof.
  eexists. split; [reflexivity|]. split; [reflexivity|].
  split; [reflexivity | eexists; reflexivity].
Qed.

(** C4, on the input where it fails.  In the memory-backed server an
    upload with another MIME type than PDF makes the upload middleware
    call [next(err)]; no error-handling middleware is registered, so the
    request leaves the application without any response of its own, on
    [/extract-text] and on [/process-pdf] alike. *)
Theorem memory_upload_rejection_escapes (w : world) :
  Memory.app rt (Example.post "/extract-text" Undefined
                   (Some Example.text_upload)) w
  = (Ok (Unhandled (new_Error rt "Only PDF files are allowed (max 10MB)")),
     w)
  ∧ Memory.app rt (Example.post "/process-pdf" Undefined
                     (Some Example.text_upload)) w
    = (Ok (Unhandled (new_Error rt "Only PDF files are allowed (max 10MB)")),
       w).
Proof.
  split; reflexivity.
Qed.

(** In the memory-backed server [translateText] throws when the provider's
    answer has no translated text, with the provider's status as the
    message when there is one that converts to a string. *)
Lemma memory_translateText_validates
    (txt : string) (fromLang toLang data : value) (from to : string)
    (w : world) :
  ToString rt fromLang = Ok from → ToString rt toLang = Ok to →
  provider rt {| url := "https://api.mymemory.translated.net/get";
                 q := substring txt 0 500;
                 langpair := from +:+ "|" +:+ to;
                 de := Some "your-email@example.com";
                 timeout := 5000 |} = Ok data →
  opt_get "translatedText" (opt_get "responseData" data) = Undefined →
  (∃ err w', Memory.translateText rt txt fromLang toLang w = (Throw err, w'))
  ∧ (∀ msg,
       ToString rt (or_else (opt_get "responseStatus" data)
                            (Str "Translation service error")) = Ok msg →
       ∃ w', Memory.translateText rt txt fromLang toLang w
             = (Throw (new_Error rt msg), w')).
Proof.
  intros Hfrom Hto Hdata Habsent. rewrite translateText_run, Hfrom, Hto.
  cbv zeta. rewrite Hdata, Habsent. simpl truthy. cbv iota. split.
  - destruct (ToString rt (or_else _ _)); eexists _, _; reflexivity.
  - intros msg ->. eexists. reflexivity.
Qed.

End Escapes.

(** C8, on the input where it fails.  The provider answers 200 with a
    [responseData] that has no [translatedText].  The disk-backed
    [/translate] answers 200 with [success: true] and no [translatedText]
    at all; the memory-backed [/translate] answers 500 "Translation
    failed". *)
Theorem disk_translate_accepts_missing_translation :
  let rt := Example.runtime_with None (Ok Example.fixture)
              (Ok Example.untranslated) in
  let body := Obj [("text", Str "hello")] in
  (Disk.translate rt body Example.empty_world).1
  = Ok {| status := 200; json := Obj [("success", Bool true)] |}
  ∧ (Memory.translate rt body Example.empty_world).1
    = Ok {| status := 500;
            json := Obj [("success", Bool false);
                         ("error", Str "Translation failed")] |}.
Proof.
  split; vm_compute; reflexivity.
Qed.

(** A run of C9 on a whole request: the PDF is staged by the upload
    middleware, parsed, and gone when the response is sent. *)
Lemma extract_text_removes_upload_witness :
  let rt := Example.runtime_with None (Ok Example.fixture)
              (Ok (Example.translated "hola")) in
  let req := Example.post "/extract-text" Undefined (Some Example.pdf_upload) in
  Disk.upload_single rt "pdf" (upload req) Example.empty_world
  = (Ok (Some Example.disk_file), Example.staged_world)
  ∧ ∃ r w', Disk.app rt req Example.empty_world = (Ok (Sent r), w')
            ∧ files w' !! "uploads/1700000000000-report.pdf" = None.
Proof.
  intros rt req.
  assert (Disk.upload_single rt "pdf" (upload req) Example.empty_world
          = (Ok (Some Example.disk_file), Example.staged_world)) as Hupload
    by (vm_compute; reflexivity).
  split; [exact Hupload|].
  exact (proj2 (proj2 (extract_text_removes_upload rt Example.disk_file
                         Example.empty_world))
           req Example.staged_world eq_refl eq_refl Hupload).
Defined.

(* ===================================================================== *)
(** ** The upload middleware *)
(* ===================================================================== *)

Section Upload.
Context (rt : runtime).

(** What [upload.single('pdf')] of the memory-backed server does with a
    request. *)
Lemma memory_upload_single_run (up : option part) (w : world) :
  Memory.upload_single rt "pdf" up w =
    match up with
    | None => (Ok None, w)
    | Some p =>
        if negb (String.eqb (fieldname p) "pdf")
        then (Throw (new_Error rt "Unexpected field"), w)
        else if String.eqb (mimetype p) "application/pdf"
        then
          if fileSize <? Z.of_nat (List.length (content p))
          then (Throw (new_Error rt "File too large"), w)
          else (Ok (Some {| Memory.file_originalname := originalname p;
                            Memory.file_mimetype := mimetype p;
                            Memory.file_size :=
                              Z.of_nat (List.length (content p));
                            Memory.file_buffer := content p |}), w)
        else (Throw (new_Error rt "Only PDF files are allowed (max 10MB)"), w)
    end.
Proof.
  unfold Memory.upload_single, single, Memory.fileFilter, Memory.memoryStorage.
  destruct up as [p|]; [|reflexivity].
  destruct (negb _); [reflexivity|].
  unfold bind, lift, ret, throw.
  destruct (String.eqb (mimetype p) _); [|reflexivity].
  destruct (fileSize <? _); reflexivity.
Qed.

(** What [upload.single('pdf')] of the disk-backed server does with a
    request.  A part larger than the limit is written under the name
    chosen for it and unlinked again, so no file of that name is left. *)
Lemma disk_upload_single_run (up : option part) (w : world) :
  Disk.upload_single rt "pdf" up w =
    match up with
    | None => (Ok None, w)
    | Some p =>
        if negb (String.eqb (fieldname p) "pdf")
        then (Throw (new_Error rt "Unexpected field"), w)
        else if String.eqb (mimetype p) "application/pdf"
        then
          let filename :=
            Number_toString rt (Date_now rt) +:+ "-" +:+ originalname p in
          if fileSize <? Z.of_nat (List.length (content p))
          then (Throw (new_Error rt "File too large"),
                {| files := delete ("uploads/" +:+ filename) (files w);
                   sent := sent w |})
          else
            (Ok (Some {| Disk.file_originalname := originalname p;
                         Disk.file_mimetype := mimetype p;
                         Disk.file_size := Z.of_nat (List.length (content p));
                         Disk.file_filename := filename;
                         Disk.file_path := "uploads/" +:+ filename |}),
             {| files := <["uploads/" +:+ filename := content p]> (files w);
                sent := sent w |})
        else (Throw (new_Error rt "Only PDF files are allowed!"), w)
    end.
Proof.
  unfold Disk.upload_single, single, Disk.fileFilter, Disk.diskStorage,
    Disk.diskStorage_remove.
  destruct up as [p|]; [|reflexivity].
  destruct (negb _); [reflexivity|].
  unfold bind, lift, ret, throw.
  destruct (String.eqb (mimetype p) _); [|reflexivity].
  cbv zeta. destruct (fileSize <? _); [|reflexivity].
  simpl. rewrite delete_insert_eq. reflexivity.
Qed.

End Upload.

Section UploadProperties.
Context (rt : runtime).

(** X1. A request reaches a handler with [req.file] set only for a part
    in field [pdf] whose MIME type is [application/pdf] and whose size is
    at most 10485760 bytes.  The memory-backed server then holds the bytes
    of the part in [req.file.buffer] and changes nothing else; the
    disk-backed server has written them to
    [uploads/<Date.now()>-<originalname>], which is [req.file.path], and
    has sent nothing to the provider. *)
Theorem accepted_upload_is_staged_pdf (up : option part) (w w' : world) :
  (∀ f, Memory.upload_single rt "pdf" up w = (Ok (Some f), w') →
        w' = w
        ∧ ∃ p, up = Some p ∧ fieldname p = "pdf"
               ∧ Memory.file_mimetype f = "application/pdf"
               ∧ Memory.file_buffer f = content p
               ∧ Memory.file_size f = Z.of_nat (List.length (content p))
               ∧ Memory.file_size f <= 10485760)
  ∧ (∀ f, Disk.upload_single rt "pdf" up w = (Ok (Some f), w') →
        ∃ p, up = Some p ∧ fieldname p = "pdf"
             ∧ Disk.file_mimetype f = "application/pdf"
             ∧ Disk.file_size f <= 10485760
             ∧ Disk.file_path f
               = "uploads/" +:+ Number_toString rt (Date_now rt)
                   +:+ "-" +:+ originalname p
             ∧ files w' = <[Disk.file_path f := content p]> (files w)
             ∧ sent w' = sent w).
Proof.
  split; intros f Hrun.
  - rewrite memory_upload_single_run in Hrun.
    destruct up as [p|]; [|discriminate Hrun].
    destruct (String.eqb (fieldname p) "pdf") eqn:Hfield;
      [|discriminate Hrun].
    destruct (String.eqb (mimetype p) "application/pdf") eqn:Hmime;
      [|discriminate Hrun].
    simpl in Hrun.
    destruct (fileSize <? _) eqn:Hsize; [discriminate Hrun|].
    inversion Hrun; subst. split; [reflexivity|].
    exists p. apply String.eqb_eq in Hfield, Hmime.
    apply Z.ltb_ge in Hsize. unfold fileSize in Hsize. simpl.
    repeat split; auto.
  - rewrite disk_upload_single_run in Hrun.
    destruct up as [p|]; [|discriminate Hrun].
    destruct (String.eqb (fieldname p) "pdf") eqn:Hfield;
      [|discriminate Hrun].
    destruct (String.eqb (mimetype p) "application/pdf") eqn:Hmime;
      [|discriminate Hrun].
    simpl in Hrun.
    destruct (fileSize <? _) eqn:Hsize; [discriminate Hrun|].
    inversion Hrun; subst.
    exists p. apply String.eqb_eq in Hfield, Hmime.
    apply Z.ltb_ge in Hsize. unfold fileSize in Hsize. simpl.
    repeat split; auto.
Qed.

(** X2. When the upload middleware of the memory-backed server rejects a
    request, the world is as it was before.  When that of the disk-backed
    server rejects one, nothing was sent and the files are as before,
    except after a PDF larger than 10485760 bytes: that one was written
    under the name chosen for it and unlinked again, so a file of that
    name is gone.  A part in field [pdf] with another MIME type than
    [application/pdf] is rejected before anything is written: the
    disk-backed server answers 500 "Internal server error" with the
    filter's message in [details]; in the memory-backed server the
    filter's error leaves the application, on [/extract-text] and on
    [/process-pdf]. *)
Theorem rejected_upload_leaves_no_trace (p : part) (b : value) (w : world) :
  fieldname p = "pdf" →
  mimetype p ≠ "application/pdf" →
  (∀ up e w', Memory.upload_single rt "pdf" up w = (Throw e, w') → w' = w)
  ∧ (∀ up e w',
       Disk.upload_single rt "pdf" up w = (Throw e, w') →
       sent w' = sent w
       ∧ (files w' = files w
          ∨ ∃ p', up = Some p'
                  ∧ mimetype p' = "application/pdf"
                  ∧ 10485760 < Z.of_nat (List.length (content p'))
                  ∧ files w'
                    = delete ("uploads/" +:+ Number_toString rt (Date_now rt)
                                +:+ "-" +:+ originalname p') (files w)))
  ∧ Disk.upload_single rt "pdf" (Some p) w
    = (Throw (new_Error rt "Only PDF files are allowed!"), w)
  ∧ Disk.app rt {| method := "POST"; path := "/extract-text";
                   body := b; upload := Some p |} w
    = (Ok (Sent {| status := 500;
                   json := Obj [("success", Bool false);
                                ("error", Str "Internal server error");
                                ("details",
                                 Str "Only PDF files are allowed!")] |}), w)
  ∧ Memory.app rt {| method := "POST"; path := "/extract-text";
                     body := b; upload := Some p |} w
    = (Ok (Unhandled
             (new_Error rt "Only PDF files are allowed (max 10MB)")), w)
  ∧ Memory.app rt {| method := "POST"; path := "/process-pdf";
                     body := b; upload := Some p |} w
    = (Ok (Unhandled
             (new_Error rt "Only PDF files are allowed (max 10MB)")), w).
Proof.
  intros Hfield Hmime.
  assert (String.eqb (mimetype p) "application/pdf" = false) as Hm
    by (apply String.eqb_neq; exact Hmime).
  split; [|split; [|split; [|split; [|split]]]].
  - intros up e w' Hrun. rewrite memory_upload_single_run in Hrun.
    destruct up as [p'|]; [|discriminate Hrun].
    repeat case_match; inversion Hrun; reflexivity.
  - intros up e w' Hrun. rewrite disk_upload_single_run in Hrun.
    destruct up as [p'|]; [|discriminate Hrun].
    destruct (negb _); [inversion Hrun; auto|].
    destruct (String.eqb (mimetype p') "application/pdf") eqn:Hpdf;
      [|inversion Hrun; auto].
    cbv zeta in Hrun.
    destruct (fileSize <? _) eqn:Hsize; [|discriminate Hrun].
    inversion Hrun; subst. split; [reflexivity|]. right.
    exists p'. apply String.eqb_eq in Hpdf. apply Z.ltb_lt in Hsize.
    unfold fileSize in Hsize. simpl. auto.
  - rewrite disk_upload_single_run, Hfield, Hm. reflexivity.
  - unfold Disk.app. cbn [method path String.eqb Ascii.eqb Bool.eqb andb].
    unfold Disk.with_upload. cbn [upload].
    rewrite disk_upload_single_run, Hfield, Hm. reflexivity.
  - unfold Memory.app. cbn [method path String.eqb Ascii.eqb Bool.eqb andb].
    unfold Memory.with_upload. cbn [upload].
    rewrite memory_upload_single_run, Hfield, Hm. reflexivity.
  - unfold Memory.app. cbn [method path String.eqb Ascii.eqb Bool.eqb andb].
    unfold Memory.with_upload. cbn [upload].
    rewrite memory_upload_single_run, Hfield, Hm. reflexivity.
Qed.

(** X3. A POST without a file part is answered with status 400 and
    [{success: false, error: "No PDF file uploaded"}], by [/extract-text]
    of both servers and by [/process-pdf]; the parser and the provider are
    not consulted and the world is left as it was. *)
Theorem missing_file_is_bad_request (req : request) (w : world) :
  method req = "POST" → upload req = None →
  let no_pdf := {| status := 400;
                   json := Obj [("success", Bool false);
                                ("error", Str "No PDF file uploaded")] |} in
  (path req = "/extract-text" →
   Disk.app rt req w = (Ok (Sent no_pdf), w)
   ∧ Memory.app rt req w = (Ok (Sent no_pdf), w))
  ∧ (path req = "/process-pdf" →
     Memory.app rt req w = (Ok (Sent no_pdf), w)).
Proof.
  intros Hmethod Hup no_pdf. split; intros Hpath; [split|].
  - unfold Disk.app. rewrite Hmethod, Hpath.
    cbn [String.eqb Ascii.eqb Bool.eqb andb].
    unfold Disk.with_upload. rewrite disk_upload_single_run, Hup.
    reflexivity.
  - unfold Memory.app. rewrite Hmethod, Hpath.
    cbn [String.eqb Ascii.eqb Bool.eqb andb].
    unfold Memory.with_upload. rewrite memory_upload_single_run, Hup.
    reflexivity.
  - unfold Memory.app. rewrite Hmethod, Hpath.
    cbn [String.eqb Ascii.eqb Bool.eqb andb].
    unfold Memory.with_upload. rewrite memory_upload_single_run, Hup.
    reflexivity.
Qed.

End UploadProperties.

(** A run of X1: the disk-backed server stages [report.pdf]. *)
Lemma accepted_upload_is_staged_pdf_witness :
  let rt := Example.runtime_with None (Ok Example.fixture)
              (Ok (Example.translated "hola")) in
  Disk.upload_single rt "pdf" (Some Example.pdf_upload) Example.empty_world
  = (Ok (Some Example.disk_file), Example.staged_world)
  ∧ ∃ p, Some Example.pdf_upload = Some p ∧ fieldname p = "pdf"
         ∧ Disk.file_mimetype Example.disk_file = "application/pdf"
         ∧ Disk.file_size Example.disk_file <= 10485760
         ∧ Disk.file_path Example.disk_file
           = "uploads/" +:+ Number_toString rt (Date_now rt)
               +:+ "-" +:+ originalname p
         ∧ files Example.staged_world
           = <[Disk.file_path Example.disk_file := content p]>
               (files Example.empty_world)
         ∧ sent Example.staged_world = sent Example.empty_world.
Proof.
  intros rt.
  assert (Disk.upload_single rt "pdf" (Some Example.pdf_upload)
            Example.empty_world
          = (Ok (Some Example.disk_file), Example.staged_world)) as Hrun
    by (vm_compute; reflexivity).
  split; [exact Hrun|].
  exact (proj2 (accepted_upload_is_staged_pdf rt (Some Example.pdf_upload)
                  Example.empty_world Example.staged_world)
           Example.disk_file Hrun).
Defined.

(** A run of X2 on [notes.txt]. *)
Lemma rejected_upload_leaves_no_trace_witness :
  let rt := Example.runtime_with None (Ok Example.fixture)
              (Ok (Example.translated "hola")) in
  Disk.app rt (Example.post "/extract-text" Undefined
                 (Some Example.text_upload)) Example.empty_world
  = (Ok (Sent {| status := 500;
                 json := Obj [("success", Bool false);
                              ("error", Str "Internal server error");
                              ("details",
                               Str "Only PDF files are allowed!")] |}),
     Example.empty_world).
Proof.
  intros rt.
  destruct (rejected_upload_leaves_no_trace rt Example.text_upload Undefined
              Example.empty_world eq_refl ltac:(discriminate))
    as (_ & _ & _ & Hdisk & _).
  exact Hdisk.
Defined.

(** A run of X3 on [/extract-text] without a file. *)
Lemma missing_file_is_bad_request_witness :
  let rt := Example.runtime_with None (Ok Example.fixture)
              (Ok (Example.translated "hola")) in
  let req := Example.post "/extract-text" Undefined None in
  let no_pdf := {| status := 400;
                   json := Obj [("success", Bool false);
                                ("error", Str "No PDF file uploaded")] |} in
  Disk.app rt req Example.empty_world = (Ok (Sent no_pdf), Example.empty_world)
  ∧ Memory.app rt req Example.empty_world
    = (Ok (Sent no_pdf), Example.empty_world).
Proof.
  intros rt req no_pdf.
  exact (proj1 (missing_file_is_bad_request rt req Example.empty_world
                  eq_refl eq_refl) eq_refl).
Defined.

(* ===================================================================== *)
(** ** Files and provider calls of a whole request *)
(* ===================================================================== *)

Section Footprint.
Context {A B : Type}.

Lemma keeps_files_ret (a : A) : keeps_files (ret a).
Proof. intros w. reflexivity. Qed.

Lemma keeps_files_throw (e : Error) : keeps_files (@throw A e).
Proof. intros w. reflexivity. Qed.

Lemma keeps_files_lift (r : result A) : keeps_files (lift r).
Proof. intros w. reflexivity. Qed.

Lemma keeps_files_bind (m : M A) (k : A → M B) :
  keeps_files m → (∀ a, keeps_files (k a)) → keeps_files (bind m k).
Proof.
  intros Hm Hk w. unfold bind. specialize (Hm w).
  destruct (m w) as [[a|e] w1]; simpl in *; [|exact Hm].
  rewrite <- Hm. apply Hk.
Qed.

Lemma keeps_files_try_catch (m : M A) (h : Error → M A) :
  keeps_files m → (∀ e, keeps_files (h e)) → keeps_files (try_catch m h).
Proof.
  intros Hm Hh w. unfold try_catch. specialize (Hm w).
  destruct (m w) as [[a|e] w1]; simpl in *; [exact Hm|].
  rewrite <- Hm. apply Hh.
Qed.

Lemma calls_ret (a : A) : calls_at_most 0 (ret a).
Proof. intros w. exists []. simpl. rewrite app_nil_r. auto. Qed.

Lemma calls_throw (e : Error) : calls_at_most 0 (@throw A e).
Proof. intros w. exists []. simpl. rewrite app_nil_r. auto. Qed.

Lemma calls_lift (r : result A) : calls_at_most 0 (lift r).
Proof. intros w. exists []. simpl. rewrite app_nil_r. auto. Qed.

Lemma calls_weaken (n n' : nat) (m : M A) :
  (n <= n')%nat → calls_at_most n m → calls_at_most n' m.
Proof.
  intros Hle Hm w. destruct (Hm w) as (new & E & L).
  exists new. split; [exact E | lia].
Qed.

Lemma calls_bind (n1 n2 : nat) (m : M A) (k : A → M B) :
  calls_at_most n1 m → (∀ a, calls_at_most n2 (k a)) →
  calls_at_most (n1 + n2) (bind m k).
Proof.
  intros Hm Hk w. unfold bind.
  destruct (Hm w) as (new1 & E1 & L1).
  destruct (m w) as [[a|e] w1]; simpl in *.
  - destruct (Hk a w1) as (new2 & E2 & L2).
    exists (new1 ++ new2). rewrite E2, E1, app_assoc, length_app.
    split; [reflexivity | lia].
  - exists new1. split; [exact E1 | lia].
Qed.

Lemma calls_try_catch (n1 n2 : nat) (m : M A) (h : Error → M A) :
  calls_at_most n1 m → (∀ e, calls_at_most n2 (h e)) →
  calls_at_most (n1 + n2) (try_catch m h).
Proof.
  intros Hm Hh w. unfold try_catch.
  destruct (Hm w) as (new1 & E1 & L1).
  destruct (m w) as [[a|e] w1]; simpl in *.
  - exists new1. split; [exact E1 | lia].
  - destruct (Hh e w1) as (new2 & E2 & L2).
    exists (new1 ++ new2). rewrite E2, E1, app_assoc, length_app.
    split; [reflexivity | lia].
Qed.

End Footprint.

Section FootprintOfHandlers.
Context (rt : runtime).

Lemma keeps_files_member (v : value) (k : string) : keeps_files (member rt v k).
Proof.
  unfold member. destruct (nullish v);
    [apply keeps_files_throw | apply keeps_files_ret].
Qed.

Lemma keeps_files_axios_get (c : axios_call) : keeps_files (axios_get rt c).
Proof. intros w. reflexivity. Qed.

Lemma calls_member (v : value) (k : string) : calls_at_most 0 (member rt v k).
Proof.
  unfold member. destruct (nullish v); [apply calls_throw | apply calls_ret].
Qed.

Lemma calls_axios_get (c : axios_call) : calls_at_most 1 (axios_get rt c).
Proof. intros w. exists [c]. split; [reflexivity | simpl; lia]. Qed.

Lemma calls_existsSync (p : string) : calls_at_most 0 (existsSync p).
Proof. intros w. exists []. simpl. rewrite app_nil_r. auto. Qed.

Lemma calls_readFileSync (p : string) : calls_at_most 0 (readFileSync rt p).
Proof.
  intros w. exists []. unfold readFileSync.
  destruct (files w !! p); simpl; rewrite app_nil_r; auto.
Qed.

Lemma calls_unlinkSync (p : string) : calls_at_most 0 (unlinkSync rt p).
Proof.
  intros w. exists []. unfold unlinkSync.
  destruct (files w !! p); simpl; rewrite app_nil_r; auto.
Qed.

Lemma keeps_files_language_pair (a b : value) :
  keeps_files (language_pair rt a b).
Proof.
  unfold language_pair.
  repeat (apply keeps_files_bind; [apply keeps_files_lift | intros ?]).
  apply keeps_files_ret.
Qed.

Lemma calls_language_pair (a b : value) :
  calls_at_most 0 (language_pair rt a b).
Proof.
  unfold language_pair.
  repeat (apply (calls_bind 0 0); [apply calls_lift | intros ?]).
  apply calls_ret.
Qed.

Lemma keeps_files_throw_new_Error {A} (v : value) :
  keeps_files (@throw_new_Error rt A v).
Proof.
  unfold throw_new_Error.
  apply keeps_files_bind; [apply keeps_files_lift | intros ?].
  apply keeps_files_throw.
Qed.

Lemma calls_throw_new_Error {A} (v : value) :
  calls_at_most 0 (@throw_new_Error rt A v).
Proof.
  unfold throw_new_Error.
  apply (calls_bind 0 0); [apply calls_lift | intros ?].
  apply calls_throw.
Qed.

Create HintDb footprint.
#[local] Hint Resolve keeps_files_ret keeps_files_throw keeps_files_lift
  keeps_files_member keeps_files_axios_get keeps_files_language_pair
  keeps_files_throw_new_Error : footprint.
#[local] Hint Resolve calls_ret calls_throw calls_lift calls_member
  calls_existsSync calls_readFileSync calls_unlinkSync calls_language_pair
  calls_throw_new_Error : footprint.

Ltac keeps_files_step :=
  first [ solve [ auto with footprint ]
        | apply keeps_files_bind; [| intros ? ]
        | apply keeps_files_try_catch; [| intros ? ] ].

Ltac no_calls_step :=
  first [ solve [ auto with footprint ]
        | apply (calls_bind 0 0); [| intros ? ]
        | apply (calls_try_catch 0 0); [| intros ? ] ].

Lemma zero_or_one_call {A} (m : M A) : calls_at_most 0 m → calls_at_most 1 m.
Proof. apply calls_weaken. lia. Qed.

(** The memory-backed handlers. *)
Lemma memory_translateText_keeps_files (txt : string) (fromLang toLang : value) :
  keeps_files (Memory.translateText rt txt fromLang toLang).
Proof.
  unfold Memory.translateText.
  apply keeps_files_bind; [auto with footprint|]. intros languages.
  apply keeps_files_bind; [auto with footprint|]. intros data.
  destruct (negb _); repeat keeps_files_step.
Qed.

Lemma memory_translateText_calls (txt : string) (fromLang toLang : value) :
  calls_at_most 1 (Memory.translateText rt txt fromLang toLang).
Proof.
  unfold Memory.translateText.
  apply (calls_bind 0 1); [auto with footprint|]. intros languages.
  apply (calls_bind 1 0); [apply calls_axios_get|]. intros data.
  destruct (negb _); repeat no_calls_step.
Qed.

Lemma memory_handlers_keep_files
    (req_file : option Memory.file) (body : value) :
  keeps_files (Memory.process_pdf rt req_file)
  ∧ keeps_files (Memory.extract_text rt req_file)
  ∧ keeps_files (Memory.translate rt body).
Proof.
  pose proof memory_translateText_keeps_files as Ht.
  split; [|split].
  - unfold Memory.process_pdf, Memory.process_pdf_try, Memory.process_pdf_catch.
    apply keeps_files_try_catch; [|auto with footprint].
    destruct req_file as [f|]; [|auto with footprint].
    repeat keeps_files_step. destruct (50 <? _); auto with footprint.
  - unfold Memory.extract_text, Memory.extract_text_try, Memory.extract_text_catch.
    apply keeps_files_try_catch; [|auto with footprint].
    destruct req_file as [f|]; repeat keeps_files_step.
  - unfold Memory.translate, Memory.translate_try, Memory.translate_catch, Memory.destructure.
    apply keeps_files_try_catch; [|auto with footprint].
    apply keeps_files_bind; [destruct (nullish body); auto with footprint|].
    intros [[txt fromLang] toLang].
    destruct (negb (truthy txt) || _); [auto with footprint|].
    destruct txt; repeat keeps_files_step.
Qed.

Lemma memory_handlers_calls (req_file : option Memory.file) (body : value) :
  calls_at_most 1 (Memory.process_pdf rt req_file)
  ∧ calls_at_most 0 (Memory.extract_text rt req_file)
  ∧ calls_at_most 1 (Memory.translate rt body).
Proof.
  pose proof memory_translateText_calls as Ht.
  split; [|split].
  - unfold Memory.process_pdf, Memory.process_pdf_try, Memory.process_pdf_catch.
    apply (calls_try_catch 1 0); [|auto with footprint].
    destruct req_file as [f|];
      [|apply zero_or_one_call; auto with footprint].
    apply (calls_bind 0 1); [auto with footprint|]. intros data.
    apply (calls_bind 1 0); [|auto with footprint].
    destruct (50 <? _); [apply Ht | apply zero_or_one_call, calls_ret].
  - unfold Memory.extract_text, Memory.extract_text_try, Memory.extract_text_catch.
    apply (calls_try_catch 0 0); [|auto with footprint].
    destruct req_file as [f|]; repeat no_calls_step.
  - unfold Memory.translate, Memory.translate_try, Memory.translate_catch, Memory.destructure.
    apply (calls_try_catch 1 0); [|auto with footprint].
    apply (calls_bind 0 1); [destruct (nullish body); auto with footprint|].
    intros [[txt fromLang] toLang].
    destruct (negb (truthy txt) || _);
      [apply zero_or_one_call; auto with footprint|].
    destruct txt; try solve [apply zero_or_one_call; auto with footprint].
    apply (calls_bind 1 0); [apply Ht | auto with footprint].
Qed.

(** The disk-backed handlers. *)
Lemma disk_handlers_calls (req_file : option Disk.file) (body : value) :
  calls_at_most 0 (Disk.extract_text rt req_file)
  ∧ calls_at_most 1 (Disk.translate rt body).
Proof.
  split.
  - unfold Disk.extract_text, Disk.extract_text_try, Disk.extract_text_catch. apply (calls_try_catch 0 0).
    + destruct req_file as [f|]; repeat no_calls_step.
    + intros err. apply (calls_bind 0 0); [|auto with footprint].
      destruct req_file as [f|]; [|auto with footprint].
      apply (calls_bind 0 0); [auto with footprint|].
      intros [|]; auto with footprint.
  - unfold Disk.translate, Disk.translate_try, Disk.translate_catch, Disk.destructure.
    apply (calls_try_catch 1 0); [|auto with footprint].
    apply (calls_bind 0 1); [destruct (nullish body); auto with footprint|].
    intros [[txt fromLang] toLang].
    destruct (negb (truthy txt) || _);
      [apply zero_or_one_call; auto with footprint|].
    destruct txt; try solve [apply zero_or_one_call; auto with footprint].
    apply (calls_bind 0 1); [auto with footprint|]. intros languages.
    apply (calls_bind 1 0); [apply calls_axios_get|]. intros data.
    apply (calls_bind 0 0);
      [destruct (truthy data); auto with footprint|].
    intros valid. destruct (truthy valid); repeat no_calls_step.
Qed.

Lemma disk_translate_keeps_files (body : value) :
  keeps_files (Disk.translate rt body).
Proof.
  unfold Disk.translate, Disk.translate_try, Disk.translate_catch, Disk.destructure.
  apply keeps_files_try_catch; [|auto with footprint].
  apply keeps_files_bind; [destruct (nullish body); auto with footprint|].
  intros [[txt fromLang] toLang].
  destruct (negb (truthy txt) || _); [auto with footprint|].
  destruct txt; try solve [auto with footprint].
  apply keeps_files_bind; [auto with footprint|]. intros languages.
  apply keeps_files_bind; [auto with footprint|]. intros data.
  apply keeps_files_bind; [destruct (truthy data); auto with footprint|].
  intros valid. destruct (truthy valid); repeat keeps_files_step.
Qed.

End FootprintOfHandlers.

Section FootprintOfRequests.
Context (rt : runtime).

Lemma memory_with_upload_world
    (handler : option Memory.file → M response) (req : request) (w : world) :
  (Memory.with_upload rt handler req w).2
  = match Memory.upload_single rt "pdf" (upload req) w with
    | (Ok req_file, w') => (handler req_file w').2
    | (Throw _, w') => w'
    end.
Proof.
  unfold Memory.with_upload.
  destruct (Memory.upload_single rt "pdf" (upload req) w) as [[req_file|e] w'];
    [|reflexivity].
  destruct (handler req_file w') as [[r|e] w'']; reflexivity.
Qed.

Lemma disk_with_upload_world
    (handler : option Disk.file → M response) (req : request) (w : world) :
  (Disk.with_upload rt handler req w).2
  = match Disk.upload_single rt "pdf" (upload req) w with
    | (Ok req_file, w') => (handler req_file w').2
    | (Throw _, w') => w'
    end.
Proof.
  unfold Disk.with_upload.
  destruct (Disk.upload_single rt "pdf" (upload req) w) as [[req_file|e] w'];
    [|reflexivity].
  destruct (handler req_file w') as [[r|e] w'']; reflexivity.
Qed.

Lemma memory_without_upload_world (handler : M response) (w : world) :
  (Memory.without_upload handler w).2 = (handler w).2.
Proof.
  unfold Memory.without_upload. destruct (handler w) as [[r|e] w']; reflexivity.
Qed.

Lemma disk_without_upload_world (handler : M response) (w : world) :
  (Disk.without_upload handler w).2 = (handler w).2.
Proof.
  unfold Disk.without_upload. destruct (handler w) as [[r|e] w']; reflexivity.
Qed.

(** X4. The memory-backed server has no footprint on the file system:
    whatever the request, the parser's answer and the provider's answer,
    the files are the same after the request as before. *)
Theorem memory_server_never_touches_files (req : request) :
  keeps_files (Memory.app rt req).
Proof.
  intros w. unfold Memory.app.
  repeat case_match; try reflexivity.
  - rewrite memory_with_upload_world.
    pose proof (upload_single_silent rt (upload req) w) as Hs.
    destruct (Memory.upload_single rt "pdf" (upload req) w)
      as [[req_file|e] w1]; simpl in Hs; subst w1; [|reflexivity].
    apply (memory_handlers_keep_files rt req_file Undefined).
  - rewrite memory_with_upload_world.
    pose proof (upload_single_silent rt (upload req) w) as Hs.
    destruct (Memory.upload_single rt "pdf" (upload req) w)
      as [[req_file|e] w1]; simpl in Hs; subst w1; [|reflexivity].
    apply (memory_handlers_keep_files rt req_file Undefined).
  - rewrite memory_without_upload_world.
    apply (memory_handlers_keep_files rt None (body req)).
Qed.

Lemma calls_memory_with_upload
    (n : nat) (handler : option Memory.file → M response) (req : request) :
  (∀ req_file, calls_at_most n (handler req_file)) →
  calls_at_most n (Memory.with_upload rt handler req).
Proof.
  intros Hh w. rewrite memory_with_upload_world.
  pose proof (upload_single_silent rt (upload req) w) as Hs.
  destruct (Memory.upload_single rt "pdf" (upload req) w)
    as [[req_file|e] w1]; simpl in Hs; subst w1; [apply Hh|].
  exists []. rewrite app_nil_r. split; [reflexivity | simpl; lia].
Qed.

Lemma calls_disk_with_upload
    (n : nat) (handler : option Disk.file → M response) (req : request) :
  (∀ req_file, calls_at_most n (handler req_file)) →
  calls_at_most n (Disk.with_upload rt handler req).
Proof.
  intros Hh w. rewrite disk_with_upload_world.
  assert (sent (Disk.upload_single rt "pdf" (upload req) w).2 = sent w) as Hs.
  { rewrite disk_upload_single_run. repeat case_match; reflexivity. }
  destruct (Disk.upload_single rt "pdf" (upload req) w)
    as [[req_file|e] w1]; simpl in Hs.
  - destruct (Hh req_file w1) as (new & E & L).
    exists new. rewrite E, Hs. auto.
  - exists []. rewrite app_nil_r. split; [exact Hs | simpl; lia].
Qed.

(** X5. A request leads to at most one query to the translation
    provider, in both servers: there is no retry and no second call.  A
    request to [/extract-text] leads to none. *)
Theorem at_most_one_provider_call (req : request) :
  calls_at_most 1 (Memory.app rt req)
  ∧ calls_at_most 1 (Disk.app rt req)
  ∧ (path req = "/extract-text" →
     calls_at_most 0 (Memory.app rt req)
     ∧ calls_at_most 0 (Disk.app rt req)).
Proof.
  split; [|split].
  - unfold Memory.app. repeat case_match;
      try (apply zero_or_one_call, calls_ret).
    + apply calls_memory_with_upload. intros req_file.
      apply (memory_handlers_calls rt req_file Undefined).
    + apply calls_memory_with_upload. intros req_file.
      apply zero_or_one_call, (memory_handlers_calls rt req_file Undefined).
    + intros w. rewrite memory_without_upload_world.
      apply (memory_handlers_calls rt None (body req)).
  - unfold Disk.app. repeat case_match;
      try (apply zero_or_one_call, calls_ret).
    + apply calls_disk_with_upload. intros req_file.
      apply zero_or_one_call, (disk_handlers_calls rt req_file Undefined).
    + intros w. rewrite disk_without_upload_world.
      apply (disk_handlers_calls rt None (body req)).
  - intros Hpath. unfold Memory.app, Disk.app. rewrite Hpath.
    cbn [String.eqb Ascii.eqb Bool.eqb andb]. rewrite !andb_false_r.
    split.
    + destruct (String.eqb (method req) "POST"); cbn [andb];
        [|apply calls_ret].
      apply calls_memory_with_upload. intros req_file.
      apply (memory_handlers_calls rt req_file Undefined).
    + destruct (String.eqb (method req) "POST"); cbn [andb];
        [|apply calls_ret].
      apply calls_disk_with_upload. intros req_file.
      apply (disk_handlers_calls rt req_file Undefined).
Qed.

End FootprintOfRequests.

Section DiskFiles.
Context (rt : runtime).

(** What [/extract-text] of the disk-backed server leaves on disk. *)
Lemma disk_extract_text_files (req_file : option Disk.file) (w : world) :
  files (Disk.extract_text rt req_file w).2
  = match req_file with
    | Some f => delete (Disk.file_path f) (files w)
    | None => files w
    end.
Proof.
  unfold Disk.extract_text, Disk.extract_text_try, Disk.extract_text_catch, try_catch, bind, readFileSync, lift,
    unlinkSync, existsSync, ret.
  destruct req_file as [f|]; [|reflexivity].
  destruct (files w !! Disk.file_path f) as [dataBuffer|] eqn:Hfile.
  - destruct (pdf rt dataBuffer) as [data|e]; rewrite Hfile; simpl;
      rewrite ?Hfile; reflexivity.
  - rewrite Hfile. simpl. symmetry. apply delete_id. exact Hfile.
Qed.

(** X6. The disk-backed server never leaves a file behind and never
    removes a file other than the one it staged: [/extract-text] with
    [req.file] leaves exactly the files it found, without
    [req.file.path]; [/translate] leaves the files alone; and after any
    request the files are those from before the request, except that a
    file that already had the name chosen for the upload,
    [uploads/<Date.now()>-<originalname>], is gone. *)
Theorem disk_server_cleans_up_after_itself (req : request) (w : world) :
  (∀ f, files (Disk.extract_text rt (Some f) w).2
        = delete (Disk.file_path f) (files w))
  ∧ keeps_files (Disk.translate rt (body req))
  ∧ (files (Disk.app rt req w).2 = files w
     ∨ ∃ p, upload req = Some p
            ∧ files (Disk.app rt req w).2
              = delete ("uploads/" +:+ Number_toString rt (Date_now rt)
                          +:+ "-" +:+ originalname p) (files w)).
Proof.
  split; [|split].
  - intros f. apply (disk_extract_text_files (Some f)).
  - apply disk_translate_keeps_files.
  - unfold Disk.app. repeat case_match; try (left; reflexivity).
    + rewrite disk_with_upload_world, disk_upload_single_run.
      destruct (upload req) as [p|];
        [|left; apply (disk_extract_text_files None)].
      destruct (negb _); [left; reflexivity|].
      destruct (String.eqb (mimetype p) _); [|left; reflexivity].
      right. exists p. split; [reflexivity|]. cbv zeta.
      destruct (fileSize <? _); [reflexivity|]. cbv beta iota.
      rewrite disk_extract_text_files. simpl.
      apply delete_insert_eq.
    + left. rewrite disk_without_upload_world.
      apply disk_translate_keeps_files.
Qed.

(** X7. For a non-empty [text] and two languages that convert to
    strings, the disk-backed [/translate] sends exactly one query whose
    [q] is the first 500 characters of the text, and the text itself when
    it has at most 500: its conditional cut is the unconditional cut of
    the memory-backed server, which sends the same [q].  When the
    conversion of a language throws, neither server sends anything. *)
Theorem disk_translate_sends_first_500
    (body : value) (s : string) (w : world) :
  nullish body = false → get "text" body = Str s → s ≠ "" →
  (∀ from to,
     ToString rt match get "fromLang" body with
                 | Undefined => Str "en" | v => v end = Ok from →
     ToString rt match get "toLang" body with
                 | Undefined => Str "es" | v => v end = Ok to →
     sent (Disk.translate rt body w).2
     = sent w ++ [ {| url := "https://api.mymemory.translated.net/get";
                      q := substring s 0 500;
                      langpair := from +:+ "|" +:+ to;
                      de := None;
                      timeout := 10000 |} ])
  ∧ (∀ from to,
       ToString rt match get "fromLang" body with
                   | Undefined => Str "auto" | v => v end = Ok from →
       ToString rt match get "toLang" body with
                   | Undefined => Str "en" | v => v end = Ok to →
       sent (Memory.translate rt body w).2
       = sent w ++ [ {| url := "https://api.mymemory.translated.net/get";
                        q := substring s 0 500;
                        langpair := from +:+ "|" +:+ to;
                        de := Some "your-email@example.com";
                        timeout := 5000 |} ])
  ∧ length (substring s 0 500) <= 500
  ∧ (length s <= 500 → substring s 0 500 = s)
  ∧ (∀ e,
       ToString rt match get "fromLang" body with
                   | Undefined => Str "en" | v => v end = Throw e
       ∨ (∃ from, ToString rt match get "fromLang" body with
                              | Undefined => Str "en" | v => v end = Ok from)
         ∧ ToString rt match get "toLang" body with
                       | Undefined => Str "es" | v => v end = Throw e →
       (Disk.translate rt body w).2 = w)
  ∧ (∀ e,
       ToString rt match get "fromLang" body with
                   | Undefined => Str "auto" | v => v end = Throw e
       ∨ (∃ from, ToString rt match get "fromLang" body with
                              | Undefined => Str "auto" | v => v end = Ok from)
         ∧ ToString rt match get "toLang" body with
                       | Undefined => Str "en" | v => v end = Throw e →
       (Memory.translate rt body w).2 = w).
Proof.
  intros Hbody Htext Hs.
  assert ((if 500 <? length s then substring s 0 500 else s)
          = substring s 0 500) as Hcut.
  { destruct (500 <? length s) eqn:Hlen; [reflexivity|].
    symmetry. apply substring_prefix_all. lia. }
  split; [|split; [|split; [|split; [|split]]]].
  - intros from to Hfrom Hto.
    rewrite (disk_translate_run rt body s w Hbody Htext Hs). cbv zeta.
    rewrite Hfrom, Hto, Hcut.
    destruct (provider rt _) as [data|e]; [|reflexivity].
    destruct (truthy data && _); reflexivity.
  - intros from to Hfrom Hto.
    rewrite (memory_translate_run rt body s w Hbody Htext Hs).
    rewrite translateText_run, Hfrom, Hto. cbv zeta.
    destruct (provider rt _) as [data|e]; [|reflexivity].
    destruct (truthy (opt_get _ _)); [reflexivity|].
    destruct (ToString rt (or_else _ _)); reflexivity.
  - rewrite substring_prefix_length; lia.
  - intros Hshort. apply substring_prefix_all. exact Hshort.
  - intros e Hthrows.
    rewrite (disk_translate_run rt body s w Hbody Htext Hs). cbv zeta.
    destruct Hthrows as [Hfrom | [[from Hfrom] Hto]]; rewrite Hfrom;
      [reflexivity|]. rewrite Hto. reflexivity.
  - intros e Hthrows.
    rewrite (memory_translate_run rt body s w Hbody Htext Hs).
    rewrite translateText_run.
    destruct Hthrows as [Hfrom | [[from Hfrom] Hto]]; rewrite Hfrom;
      [reflexivity|]. rewrite Hto. reflexivity.
Qed.

End DiskFiles.

(** A run of X5 on an upload to [/extract-text]. *)
Lemma at_most_one_provider_call_witness :
  let rt := Example.runtime_with None (Ok Example.fixture)
              (Ok (Example.translated "hola")) in
  let req := Example.post "/extract-text" Undefined (Some Example.pdf_upload) in
  calls_at_most 0 (Memory.app rt req) ∧ calls_at_most 0 (Disk.app rt req).
Proof.
  intros rt req.
  exact (proj2 (proj2 (at_most_one_provider_call rt req)) eq_refl).
Defined.

(** A run of X7 on a text of 1200 characters. *)
Lemma disk_translate_sends_first_500_witness :
  let rt := Example.runtime_with None (Ok Example.fixture)
              (Ok (Example.translated "hola")) in
  let body := Obj [("text", Str (Example.filler 1200))] in
  sent (Disk.translate rt body Example.empty_world).2
  = [ {| url := "https://api.mymemory.translated.net/get";
         q := Example.filler 500;
         langpair := "en|es";
         de := None;
         timeout := 10000 |} ].
Proof.
  intros rt body.
  assert (Example.filler 1200 ≠ "") as Hne by (vm_compute; discriminate).
  exact (proj1 (disk_translate_sends_first_500 rt body (Example.filler 1200)
                  Example.empty_world eq_refl eq_refl Hne)
           "en" "es" eq_refl eq_refl).
Defined.

(* ===================================================================== *)
(** ** What a whole request is answered with *)
(* ===================================================================== *)

Section WholeRequests.
Context (rt : runtime).

(** X8. An upload of a PDF of at most 10485760 bytes that the parser
    accepts is answered with the text the parser found in the uploaded
    bytes: by the disk-backed server after a trip through the file it
    staged, which is gone afterwards, and by the memory-backed server,
    with [pages] and [textLength], without a change to the world. *)
Theorem extract_text_returns_parsed_upload
    (p : part) (b : value) (data : pdf_data) (w : world) :
  fieldname p = "pdf" → mimetype p = "application/pdf" →
  Z.of_nat (List.length (content p)) <= 10485760 →
  pdf rt (content p) = Ok data →
  let req := {| method := "POST"; path := "/extract-text";
                body := b; upload := Some p |} in
  Disk.app rt req w
  = (Ok (Sent {| status := 200;
                 json := Obj [("success", Bool true);
                              ("text", Str (text data))] |}),
     {| files := delete ("uploads/" +:+ Number_toString rt (Date_now rt)
                           +:+ "-" +:+ originalname p) (files w);
        sent := sent w |})
  ∧ Memory.app rt req w
    = (Ok (Sent {| status := 200;
                   json := Obj [("success", Bool true);
                                ("text", Str (text data));
                                ("pages", Num (numpages data));
                                ("textLength", Num (length (text data)))] |}),
       w).
Proof.
  intros Hfield Hmime Hsize Hpdf req.
  assert ((fileSize <? Z.of_nat (List.length (content p))) = false) as Hfits
    by (apply Z.ltb_ge; unfold fileSize; lia).
  subst req. split.
  - unfold Disk.app. cbn [method path String.eqb Ascii.eqb Bool.eqb andb].
    unfold Disk.with_upload. cbn [upload].
    rewrite disk_upload_single_run. cbv beta iota.
    rewrite Hfield, Hmime, Hfits.
    cbn [String.eqb Ascii.eqb Bool.eqb negb]. cbv beta iota zeta.
    erewrite disk_extract_text_run;
      [|apply lookup_insert_eq | exact Hpdf].
    simpl. rewrite delete_insert_eq. reflexivity.
  - unfold Memory.app. cbn [method path String.eqb Ascii.eqb Bool.eqb andb].
    unfold Memory.with_upload. cbn [upload].
    rewrite memory_upload_single_run. cbv beta iota.
    rewrite Hfield, Hmime, Hfits.
    cbn [String.eqb Ascii.eqb Bool.eqb negb]. cbv beta iota.
    erewrite memory_extract_text_run; [reflexivity | exact Hpdf].
Qed.

(** X9. When the parser rejects the bytes, every upload handler answers
    500 and sends nothing to the provider.  The disk-backed
    [/extract-text] reports "Failed to process PDF" with the parser's
    message in [details] and has removed the staged file; the
    memory-backed [/extract-text] reports "Text extraction failed" and
    [/process-pdf] reports "PDF processing failed", with the parser's
    message only in a development environment. *)
Theorem parser_failure_is_reported (e : Error) (w : world) :
  (∀ f dataBuffer,
     files w !! Disk.file_path f = Some dataBuffer →
     pdf rt dataBuffer = Throw e →
     Disk.extract_text rt (Some f) w
     = (Ok {| status := 500;
              json := Obj [("success", Bool false);
                           ("error", Str "Failed to process PDF");
                           ("details", Str (message e))] |},
        {| files := delete (Disk.file_path f) (files w); sent := sent w |}))
  ∧ (∀ f,
       pdf rt (Memory.file_buffer f) = Throw e →
       Memory.extract_text rt (Some f) w
       = (Ok (res_status_json 500
                (Obj [("success", Bool false);
                      ("error", Str "Text extraction failed");
                      ("details", if development rt
                                  then Obj [("message", Str (message e));
                                            ("stack", Str (stack e))]
                                  else Undefined)])), w)
       ∧ Memory.process_pdf rt (Some f) w
         = (Ok (res_status_json 500
                  (Obj [("success", Bool false);
                        ("error", Str "PDF processing failed");
                        ("details", if development rt
                                    then Str (message e) else Undefined)])),
            w)).
Proof.
  split.
  - intros f dataBuffer Hfile Hpdf.
    unfold Disk.extract_text, Disk.extract_text_try, Disk.extract_text_catch, try_catch, bind, readFileSync, lift,
      unlinkSync, existsSync, ret.
    rewrite Hfile, Hpdf. simpl. rewrite Hfile. simpl. rewrite Hfile.
    reflexivity.
  - intros f Hpdf. split.
    + unfold Memory.extract_text, Memory.extract_text_try, Memory.extract_text_catch, try_catch, bind, lift. rewrite Hpdf.
      reflexivity.
    + unfold Memory.process_pdf, Memory.process_pdf_try, Memory.process_pdf_catch, try_catch, bind, lift. rewrite Hpdf.
      reflexivity.
Qed.

End WholeRequests.

Section TranslationOutcomes.
Context (rt : runtime).

Lemma translated_text_found (data : value) (t : string) :
  get "translatedText" (get "responseData" data) = Str t →
  nullish data = false
  ∧ truthy data = true
  ∧ truthy (get "responseData" data) = true
  ∧ opt_get "translatedText" (opt_get "responseData" data) = Str t
  ∧ opt_get "responseStatus" data = get "responseStatus" data.
Proof.
  intros Ht. destruct data; try discriminate Ht.
  unfold opt_get. simpl nullish. cbv iota.
  simpl in Ht |- *.
  destruct (lookup_field "responseData" fields); try discriminate Ht.
  auto.
Qed.

(** X10. On [/process-pdf], when the text has more than 50 characters and
    the translation fails, the extraction is not answered either: the
    response is 500 "PDF processing failed", without [extractedText],
    [metadata] or [translatedText]. *)
Theorem process_pdf_fails_with_translation
    (f : Memory.file) (data : pdf_data) (err : Error) (w w' : world) :
  pdf rt (Memory.file_buffer f) = Ok data →
  50 < length (text data) →
  Memory.translateText rt (substring (text data) 0 500)
                       (Str "auto") (Str "en") w = (Throw err, w') →
  ∃ r, Memory.process_pdf rt (Some f) w = (Ok r, w')
       ∧ status r = 500
       ∧ failure r
       ∧ get "error" (json r) = Str "PDF processing failed"
       ∧ has_field "extractedText" (json r) = false
       ∧ has_field "metadata" (json r) = false
       ∧ has_field "translatedText" (json r) = false.
Proof.
  intros Hpdf Hlen Hfail.
  rewrite (process_pdf_run rt f data w Hpdf). cbv zeta.
  replace (50 <? length (text data)) with true by lia.
  rewrite Hfail. eexists. split; [reflexivity|].
  destruct (development rt); repeat split; reflexivity.
Qed.

(** X11. A [/translate] request with a non-empty [text] and two
    languages that convert to strings, whose one query the provider
    answers with a non-empty translated text, is answered 200 with that
    translation.  The memory-backed server adds [characters], the length
    of the whole [text], also when only its first 500 characters were
    sent; the disk-backed server adds nothing. *)
Theorem translate_answers_with_translation
    (body data : value) (s t : string) (w : world) :
  nullish body = false → get "text" body = Str s → s ≠ "" →
  get "translatedText" (get "responseData" data) = Str t → t ≠ "" →
  (∀ from to,
     ToString rt match get "fromLang" body with
                 | Undefined => Str "auto" | v => v end = Ok from →
     ToString rt match get "toLang" body with
                 | Undefined => Str "en" | v => v end = Ok to →
     provider rt (memory_query s from to) = Ok data →
     Memory.translate rt body w
     = (Ok {| status := 200;
              json := Obj [("success", Bool true);
                           ("translatedText", Str t);
                           ("characters", Num (length s))] |},
        {| files := files w; sent := sent w ++ [memory_query s from to] |}))
  ∧ (∀ from to,
       ToString rt match get "fromLang" body with
                   | Undefined => Str "en" | v => v end = Ok from →
       ToString rt match get "toLang" body with
                   | Undefined => Str "es" | v => v end = Ok to →
       provider rt (disk_query s from to) = Ok data →
       Disk.translate rt body w
       = (Ok {| status := 200;
                json := Obj [("success", Bool true);
                             ("translatedText", Str t)] |},
          {| files := files w; sent := sent w ++ [disk_query s from to] |})).
Proof.
  intros Hbody Htext Hs Ht Hne.
  destruct (translated_text_found data t Ht) as (_ & Hd & Hr & Hopt & _).
  assert (truthy (Str t) = true) as Htruthy
    by (destruct t; [congruence | reflexivity]).
  split; intros from to Hfrom Hto Hprov.
  - rewrite (memory_translate_run rt body s w Hbody Htext Hs).
    rewrite translateText_run, Hfrom, Hto. cbv zeta.
    unfold memory_query in Hprov. rewrite Hprov, Hopt, Htruthy. reflexivity.
  - rewrite (disk_translate_run rt body s w Hbody Htext Hs). cbv zeta.
    rewrite Hfrom, Hto. unfold disk_query in Hprov.
    rewrite Hprov, Hd, Hr, Ht. reflexivity.
Qed.

(** X12. The two servers differ on an empty translation.  When the
    provider answers the one query with [translatedText: ""], the
    memory-backed [/translate] treats it as a failure and answers 500
    "Translation failed" (the error's message is the provider's
    [responseStatus] as a string, or "Translation service error" when
    that is missing or falsy), while the disk-backed [/translate] answers
    200 with [translatedText: ""]. *)
Theorem empty_translation_divides_the_servers
    (body data : value) (s : string) (w : world) :
  nullish body = false → get "text" body = Str s → s ≠ "" →
  get "translatedText" (get "responseData" data) = Str "" →
  (∀ from to,
     ToString rt match get "fromLang" body with
                 | Undefined => Str "auto" | v => v end = Ok from →
     ToString rt match get "toLang" body with
                 | Undefined => Str "en" | v => v end = Ok to →
     provider rt (memory_query s from to) = Ok data →
     ∃ err,
       Memory.translate rt body w
       = (Ok (Memory.handleError rt err "Translation failed"),
          {| files := files w; sent := sent w ++ [memory_query s from to] |})
       ∧ status (Memory.handleError rt err "Translation failed") = 500
       ∧ failure (Memory.handleError rt err "Translation failed")
       ∧ get "error" (json (Memory.handleError rt err "Translation failed"))
         = Str "Translation failed"
       ∧ (∀ msg,
            ToString rt (or_else (get "responseStatus" data)
                                 (Str "Translation service error")) = Ok msg →
            err = new_Error rt msg)
       ∧ (truthy (get "responseStatus" data) = false →
          err = new_Error rt "Translation service error"))
  ∧ (∀ from to,
       ToString rt match get "fromLang" body with
                   | Undefined => Str "en" | v => v end = Ok from →
       ToString rt match get "toLang" body with
                   | Undefined => Str "es" | v => v end = Ok to →
       provider rt (disk_query s from to) = Ok data →
       Disk.translate rt body w
       = (Ok {| status := 200;
                json := Obj [("success", Bool true);
                             ("translatedText", Str "")] |},
          {| files := files w; sent := sent w ++ [disk_query s from to] |})).
Proof.
  intros Hbody Htext Hs Ht.
  destruct (translated_text_found data "" Ht) as (_ & Hd & Hr & Hopt & Hst).
  split; intros from to Hfrom Hto Hprov.
  - rewrite (memory_translate_run rt body s w Hbody Htext Hs).
    rewrite translateText_run, Hfrom, Hto. cbv zeta.
    unfold memory_query in Hprov. rewrite Hprov, Hopt, Hst.
    simpl truthy. cbv iota.
    destruct (ToString rt (or_else _ _)) as [msg|e] eqn:Hmsg.
    + exists (new_Error rt msg). split; [reflexivity|].
      repeat split; try reflexivity.
      * intros msg' Hmsg'. congruence.
      * intros Hfalsy. unfold or_else in Hmsg. rewrite Hfalsy in Hmsg.
        simpl in Hmsg. congruence.
    + exists e. split; [reflexivity|].
      repeat split; try reflexivity.
      * intros msg' Hmsg'. congruence.
      * intros Hfalsy. unfold or_else in Hmsg. rewrite Hfalsy in Hmsg.
        simpl in Hmsg. congruence.
  - rewrite (disk_translate_run rt body s w Hbody Htext Hs). cbv zeta.
    rewrite Hfrom, Hto. unfold disk_query in Hprov.
    rewrite Hprov, Hd, Hr, Ht. reflexivity.
Qed.

(** X13. When the one call to the provider fails (a timeout, a network
    error, a status outside 2xx), [/translate] answers 500 "Translation
    failed" in both servers, after that call: the disk-backed server with
    the error's message in [details], the memory-backed server with the
    error's message and stack in [details] only in a development
    environment.  When the conversion of a language throws instead, no
    call is made and the same answer is built from that error. *)
Theorem provider_failure_is_reported
    (body : value) (s : string) (err : Error) (w : world) :
  nullish body = false → get "text" body = Str s → s ≠ "" →
  let memory_answer :=
    res_status_json 500
      (Obj [("success", Bool false);
            ("error", Str "Translation failed");
            ("details", if development rt
                        then Obj [("message", Str (message err));
                                  ("stack", Str (stack err))]
                        else Undefined)]) in
  let disk_answer :=
    {| status := 500;
       json := Obj [("success", Bool false);
                    ("error", Str "Translation failed");
                    ("details", Str (message err))] |} in
  (∀ from to,
     ToString rt match get "fromLang" body with
                 | Undefined => Str "auto" | v => v end = Ok from →
     ToString rt match get "toLang" body with
                 | Undefined => Str "en" | v => v end = Ok to →
     provider rt (memory_query s from to) = Throw err →
     Memory.translate rt body w
     = (Ok memory_answer,
        {| files := files w; sent := sent w ++ [memory_query s from to] |}))
  ∧ (∀ from to,
       ToString rt match get "fromLang" body with
                   | Undefined => Str "en" | v => v end = Ok from →
       ToString rt match get "toLang" body with
                   | Undefined => Str "es" | v => v end = Ok to →
       provider rt (disk_query s from to) = Throw err →
       Disk.translate rt body w
       = (Ok disk_answer,
          {| files := files w; sent := sent w ++ [disk_query s from to] |}))
  ∧ (ToString rt match get "fromLang" body with
                 | Undefined => Str "auto" | v => v end = Throw err
     ∨ (∃ from, ToString rt match get "fromLang" body with
                            | Undefined => Str "auto" | v => v end = Ok from)
       ∧ ToString rt match get "toLang" body with
                     | Undefined => Str "en" | v => v end = Throw err →
     Memory.translate rt body w = (Ok memory_answer, w))
  ∧ (ToString rt match get "fromLang" body with
                 | Undefined => Str "en" | v => v end = Throw err
     ∨ (∃ from, ToString rt match get "fromLang" body with
                            | Undefined => Str "en" | v => v end = Ok from)
       ∧ ToString rt match get "toLang" body with
                     | Undefined => Str "es" | v => v end = Throw err →
     Disk.translate rt body w = (Ok disk_answer, w)).
Proof.
  intros Hbody Htext Hs memory_answer disk_answer.
  split; [|split; [|split]].
  - intros from to Hfrom Hto Hprov.
    rewrite (memory_translate_run rt body s w Hbody Htext Hs).
    rewrite translateText_run, Hfrom, Hto. cbv zeta.
    unfold memory_query in Hprov. rewrite Hprov. reflexivity.
  - intros from to Hfrom Hto Hprov.
    rewrite (disk_translate_run rt body s w Hbody Htext Hs). cbv zeta.
    rewrite Hfrom, Hto. unfold disk_query in Hprov. rewrite Hprov.
    reflexivity.
  - intros Hthrows.
    rewrite (memory_translate_run rt body s w Hbody Htext Hs).
    rewrite translateText_run.
    destruct Hthrows as [Hfrom | [[from Hfrom] Hto]]; rewrite Hfrom;
      [reflexivity|]. rewrite Hto. reflexivity.
  - intros Hthrows.
    rewrite (disk_translate_run rt body s w Hbody Htext Hs). cbv zeta.
    destruct Hthrows as [Hfrom | [[from Hfrom] Hto]]; rewrite Hfrom;
      [reflexivity|]. rewrite Hto. reflexivity.
Qed.

(** X14. The disk-backed [/translate] answers 500 "Translation failed"
    with the details "Invalid response from translation service" whenever
    the provider's answer to its one query has no [responseData]: an
    empty body, [null], a string, or an object without that property. *)
Theorem disk_translate_rejects_answer_without_responseData
    (body data : value) (s from to : string) (w : world) :
  nullish body = false → get "text" body = Str s → s ≠ "" →
  ToString rt match get "fromLang" body with
              | Undefined => Str "en" | v => v end = Ok from →
  ToString rt match get "toLang" body with
              | Undefined => Str "es" | v => v end = Ok to →
  provider rt (disk_query s from to) = Ok data →
  get "responseData" data = Undefined →
  Disk.translate rt body w
  = (Ok {| status := 500;
           json := Obj [("success", Bool false);
                        ("error", Str "Translation failed");
                        ("details",
                         Str "Invalid response from translation service")] |},
     {| files := files w; sent := sent w ++ [disk_query s from to] |}).
Proof.
  intros Hbody Htext Hs Hfrom Hto Hprov Hrd.
  rewrite (disk_translate_run rt body s w Hbody Htext Hs). cbv zeta.
  rewrite Hfrom, Hto. unfold disk_query in Hprov.
  rewrite Hprov, Hrd. simpl truthy. rewrite andb_false_r. reflexivity.
Qed.

(** X15. In a successful [/process-pdf] response the preview is never
    longer than 1003 characters: [extractedText] has the length of the
    text when that is at most 1000 and 1003 otherwise, while
    [metadata.textLength] is the length of the whole text. *)
Theorem process_pdf_preview_is_bounded
    (f : Memory.file) (w w' : world) (r : response) :
  Memory.process_pdf rt (Some f) w = (Ok r, w') →
  success r →
  ∃ preview n,
    get "extractedText" (json r) = Str preview
    ∧ get "textLength" (get "metadata" (json r)) = Num n
    ∧ length preview = (if 1000 <? n then 1003 else n)
    ∧ length preview <= 1003
    ∧ length preview <= n + 3.
Proof.
  intros Hrun Hok.
  destruct (pdf rt (Memory.file_buffer f)) as [data|e] eqn:Hpdf.
  2:{ unfold Memory.process_pdf, Memory.process_pdf_try, Memory.process_pdf_catch, try_catch, bind, lift in Hrun.
      rewrite Hpdf in Hrun. inversion Hrun; subst. discriminate Hok. }
  rewrite (process_pdf_run rt f data w Hpdf) in Hrun. cbv zeta in Hrun.
  exists (substring (text data) 0 1000
            +:+ (if 1000 <? length (text data) then "..." else "")),
         (length (text data)).
  split; [|split].
  - destruct (50 <? length (text data)).
    + destruct (Memory.translateText _ _ _ _ w) as [[t|err] w1];
        inversion Hrun; subst; [reflexivity | discriminate Hok].
    + inversion Hrun; subst. reflexivity.
  - destruct (50 <? length (text data)).
    + destruct (Memory.translateText _ _ _ _ w) as [[t|err] w1];
        inversion Hrun; subst; [reflexivity | discriminate Hok].
    + inversion Hrun; subst. reflexivity.
  - pose proof (substring_prefix_length (text data) 1000) as Hcut.
    assert (0 <= length (text data)) as Hpos by (unfold length; lia).
    assert (length (substring (text data) 0 1000
                      +:+ (if 1000 <? length (text data) then "..." else ""))
            = Z.min 1000 (length (text data))
              + (if 1000 <? length (text data) then 3 else 0)) as Hlen.
    { unfold length at 1. rewrite append_length, Nat2Z.inj_add.
      fold (length (substring (text data) 0 1000)).
      rewrite Hcut by lia. destruct (1000 <? length (text data)); reflexivity. }
    rewrite Hlen. destruct (1000 <? length (text data)) eqn:Hlong; lia.
Qed.

End TranslationOutcomes.

(** A run of X8 on [report.pdf]. *)
Lemma extract_text_returns_parsed_upload_witness :
  let rt := Example.runtime_with None (Ok Example.fixture)
              (Ok (Example.translated "hola")) in
  let req := Example.post "/extract-text" Undefined (Some Example.pdf_upload) in
  (∃ r, Disk.app rt req Example.empty_world = (Ok (Sent r), Example.empty_world)
        ∧ json r = Obj [("success", Bool true);
                        ("text", Str (Example.filler 1200))])
  ∧ (∃ r, Memory.app rt req Example.empty_world
          = (Ok (Sent r), Example.empty_world)
          ∧ get "pages" (json r) = Num 3).
Proof.
  intros rt req.
  destruct (extract_text_returns_parsed_upload rt Example.pdf_upload Undefined
              Example.fixture Example.empty_world
              eq_refl eq_refl ltac:(vm_compute; discriminate) eq_refl)
    as [Hdisk Hmemory].
  split; eexists; (split; [eassumption || exact Hdisk | reflexivity]).
Defined.

(** A run of X9 on a staged file that the parser cannot read. *)
Lemma parser_failure_is_reported_witness :
  let rt := Example.runtime_with None (Throw Example.unparsable)
              (Ok (Example.translated "hola")) in
  Disk.extract_text rt (Some Example.disk_file) Example.staged_world
  = (Ok {| status := 500;
           json := Obj [("success", Bool false);
                        ("error", Str "Failed to process PDF");
                        ("details", Str "Invalid PDF structure")] |},
     {| files := delete "uploads/1700000000000-report.pdf"
                   (files Example.staged_world);
        sent := [] |}).
Proof.
  intros rt.
  exact (proj1 (parser_failure_is_reported rt Example.unparsable
                  Example.staged_world)
           Example.disk_file [] eq_refl eq_refl).
Defined.

(** A run of X10: the provider times out on the fixture. *)
Lemma process_pdf_fails_with_translation_witness :
  let rt := Example.runtime_with None (Ok Example.fixture)
              (Throw Example.timed_out) in
  ∃ r w', Memory.process_pdf rt (Some Example.memory_file) Example.empty_world
          = (Ok r, w')
          ∧ status r = 500
          ∧ has_field "extractedText" (json r) = false.
Proof.
  intros rt.
  destruct (Memory.translateText rt (substring (text Example.fixture) 0 500)
              (Str "auto") (Str "en") Example.empty_world)
    as [[t|err] w'] eqn:Hfail; [vm_compute in Hfail; discriminate Hfail|].
  destruct (process_pdf_fails_with_translation rt Example.memory_file
              Example.fixture err Example.empty_world w'
              eq_refl ltac:(vm_compute; reflexivity) Hfail)
    as (r & Hrun & Hstatus & _ & _ & Hpreview & _).
  exists r, w'. auto.
Defined.

(** A run of X11: a provider that knows only "hello" translates it to
    "hola". *)
Lemma translate_answers_with_translation_witness :
  let rt := Example.runtime_for_hello None (Ok (Example.translated "hola"))
              Example.timed_out in
  let body := Obj [("text", Str "hello")] in
  (∃ w', Memory.translate rt body Example.empty_world
         = (Ok {| status := 200;
                  json := Obj [("success", Bool true);
                               ("translatedText", Str "hola");
                               ("characters", Num 5)] |}, w'))
  ∧ (∃ w', Disk.translate rt body Example.empty_world
           = (Ok {| status := 200;
                    json := Obj [("success", Bool true);
                                 ("translatedText", Str "hola")] |}, w')).
Proof.
  intros rt body.
  destruct (translate_answers_with_translation rt body
              (Example.translated "hola") "hello" "hola" Example.empty_world
              eq_refl eq_refl ltac:(discriminate) eq_refl ltac:(discriminate))
    as [Hmemory Hdisk].
  split; eexists.
  - exact (Hmemory "auto" "en" eq_refl eq_refl eq_refl).
  - exact (Hdisk "en" "es" eq_refl eq_refl eq_refl).
Defined.

(** A run of X12: the provider answers "hello" with an empty
    translation. *)
Lemma empty_translation_divides_the_servers_witness :
  let rt := Example.runtime_for_hello None (Ok (Example.translated ""))
              Example.timed_out in
  let body := Obj [("text", Str "hello")] in
  (∃ r w', Memory.translate rt body Example.empty_world = (Ok r, w')
           ∧ status r = 500 ∧ failure r
           ∧ get "error" (json r) = Str "Translation failed")
  ∧ (∃ w', Disk.translate rt body Example.empty_world
           = (Ok {| status := 200;
                    json := Obj [("success", Bool true);
                                 ("translatedText", Str "")] |}, w')).
Proof.
  intros rt body.
  destruct (empty_translation_divides_the_servers rt body
              (Example.translated "") "hello" Example.empty_world
              eq_refl eq_refl ltac:(discriminate) eq_refl)
    as [Hmemory Hdisk].
  split.
  - destruct (Hmemory "auto" "en" eq_refl eq_refl eq_refl)
      as (err & Hrun & Hstatus & Hfailure & Herror & _).
    eexists _, _. split; [exact Hrun|]. auto.
  - eexists. exact (Hdisk "en" "es" eq_refl eq_refl eq_refl).
Defined.

(** A run of X13: the provider times out on "hello"; and a language that
    cannot be converted is answered without any call. *)
Lemma provider_failure_is_reported_witness :
  let rt := Example.runtime_for_hello None (Throw Example.timed_out)
              Example.unparsable in
  (∃ c, Disk.translate rt (Obj [("text", Str "hello")]) Example.empty_world
        = (Ok {| status := 500;
                 json := Obj [("success", Bool false);
                              ("error", Str "Translation failed");
                              ("details", Str "timeout of 5000ms exceeded")] |},
           {| files := ∅; sent := [c] |}))
  ∧ Disk.translate rt (Obj [("text", Str "hello");
                            ("fromLang", Example.no_language)])
      Example.empty_world
    = (Ok {| status := 500;
             json := Obj [("success", Bool false);
                          ("error", Str "Translation failed");
                          ("details",
                           Str "Cannot convert object to primitive value")] |},
       Example.empty_world).
Proof.
  intros rt. split.
  - eexists.
    exact (proj1 (proj2 (provider_failure_is_reported rt
                           (Obj [("text", Str "hello")]) "hello"
                           Example.timed_out Example.empty_world
                           eq_refl eq_refl ltac:(discriminate)))
             "en" "es" eq_refl eq_refl eq_refl).
  - exact (proj2 (proj2 (proj2 (provider_failure_is_reported rt
                                  (Obj [("text", Str "hello");
                                        ("fromLang", Example.no_language)])
                                  "hello" Example.cannot_convert
                                  Example.empty_world
                                  eq_refl eq_refl ltac:(discriminate))))
             (or_introl eq_refl)).
Defined.

(** A run of X14: the provider answers "hello" with [null]. *)
Lemma disk_translate_rejects_answer_without_responseData_witness :
  let rt := Example.runtime_for_hello None (Ok Null) Example.timed_out in
  ∃ w', Disk.translate rt (Obj [("text", Str "hello")]) Example.empty_world
        = (Ok {| status := 500;
                 json := Obj [("success", Bool false);
                              ("error", Str "Translation failed");
                              ("details",
                               Str "Invalid response from translation service")] |},
           w').
Proof.
  intros rt. eexists.
  exact (disk_translate_rejects_answer_without_responseData rt
           (Obj [("text", Str "hello")]) Null "hello" "en" "es"
           Example.empty_world
           eq_refl eq_refl ltac:(discriminate) eq_refl eq_refl eq_refl eq_refl).
Defined.

(** A run of X15 on the 1200-character fixture. *)
Lemma process_pdf_preview_is_bounded_witness :
  let rt := Example.runtime_with None (Ok Example.fixture)
              (Ok (Example.translated "hola")) in
  ∃ r w' preview,
    Memory.process_pdf rt (Some Example.memory_file) Example.empty_world
    = (Ok r, w')
    ∧ get "extractedText" (json r) = Str preview
    ∧ length preview <= 1003.
Proof.
  intros rt.
  destruct (Memory.process_pdf rt (Some Example.memory_file)
              Example.empty_world) as [[r|e] w'] eqn:Hrun;
    [|vm_compute in Hrun; discriminate Hrun].
  assert (success r) as Hok.
  { vm_compute in Hrun. inversion Hrun. reflexivity. }
  destruct (process_pdf_preview_is_bounded rt Example.memory_file
              Example.empty_world w' r Hrun Hok)
    as (preview & n & Hpreview & _ & _ & Hbound & _).
  exists r, w', preview. auto.
Defined.
